(** * DOCX style extraction: [parseDocxStyles] (services/docxParser.ts)

    A shallow embedding of the style-report generator of ThesisFormatPro and
    the properties of it that the specification states.

    Conventions of the embedding.
    - A JavaScript string is a Rocq [string], read as the UTF-8 encoding of
      the text.  All needles the program searches for are ASCII.
    - A value of type [string | null] (or [string | undefined]) is an
      [option string]; [None] is [null] (or [undefined]).
    - An awaited promise is a [Completion]: it returns a value or throws.
    - The browser and library services the function calls ([JSZip],
      [DOMParser]) are not part of the repository; they form the [Platform]
      interface and every theorem holds for every platform. *)

From Stdlib Require Import String Ascii ZArith List Lia Bool.
From stdpp Require Import base strings gmap list pretty.

(** ** Strings *)

Module Str.

(** The line feed written [\n] in the source's template literals. *)
Definition LF : string := String (ascii_of_nat 10) EmptyString.

(** The double quote that the font line puts around font names. *)
Definition DQ : string := String (ascii_of_nat 34) EmptyString.

Definition isEmpty (s : string) : bool :=
  match s with EmptyString => true | String _ _ => false end.

(** [String.prototype.toLowerCase] on the ASCII range.  On code points
    outside ASCII the JavaScript function applies the Unicode case
    mapping; the only such code points whose mapping contains an ASCII
    letter are U+0130 (to [i] followed by U+0307) and U+212A (to [k]), and
    neither can complete an occurrence of [heading] or [normal], the only
    two strings searched for in a lower-cased identifier.  Bytes above 127
    are therefore left as they are. *)
Definition toLowerChar (c : ascii) : ascii :=
  let n := nat_of_ascii c in
  if (65 <=? n)%nat && (n <=? 90)%nat then ascii_of_nat (n + 32) else c.

Fixpoint toLowerCase (s : string) : string :=
  match s with
  | EmptyString => EmptyString
  | String c s' => String (toLowerChar c) (toLowerCase s')
  end.

(** [s.includes(searchString)]: [searchString] occurs in [s]. *)
Fixpoint includes (s searchString : string) : bool :=
  String.prefix searchString s ||
  match s with
  | EmptyString => false
  | String _ s' => includes s' searchString
  end.

(** The wording of the specification: [s] contains [needle] case
    insensitively when some contiguous part of [s] is [needle] up to the
    case of its letters. *)
Definition ci_contains (needle s : string) : Prop :=
  exists pre mid post,
    s = pre +:+ mid +:+ post /\ toLowerCase mid = needle.

(** [occurs t s]: [t] is a contiguous part of [s]. *)
Definition occurs (t s : string) : Prop :=
  exists pre post, s = pre +:+ t +:+ post.

End Str.

Import Str.

(** ** JavaScript values *)

Module JS.

(** Substitution [${v}] of a [string | null] in a template literal. *)
Definition tmpl (v : option string) : string :=
  match v with Some s => s | None => "null" end.

(** [v || d] for [v : string | null]: [null] and the empty string are
    falsy. *)
Definition orElse (v : option string) (d : string) : string :=
  match v with
  | Some s => if isEmpty s then d else s
  | None => d
  end.

(** [!v] for [v : string | undefined]. *)
Definition falsy (v : option string) : bool :=
  match v with
  | Some s => isEmpty s
  | None => true
  end.

(** [v === s] for [v : string | null]. *)
Definition strictEq (v : option string) (s : string) : bool :=
  match v with
  | Some t => String.eqb t s
  | None => false
  end.

(** Truthiness of a [boolean | undefined], the type of an optional chain
    [x?.f()] whose call returns a boolean. *)
Definition truthy (v : option bool) : bool :=
  match v with Some b => b | None => false end.

(** What an awaited call gives: a value, or an exception. *)
Inductive Error : Type :=
| ArchiveError   (* JSZip.loadAsync rejected *)
| ReadError.     (* ZipObject.async rejected *)

Inductive Completion (A : Type) : Type :=
| Return (a : A)
| Throw (e : Error).
Arguments Return {A} a.
Arguments Throw {A} e.

Definition bind {A B} (c : Completion A) (k : A -> Completion B)
  : Completion B :=
  match c with
  | Return a => k a
  | Throw e => Throw e
  end.

(** [try { body } catch (e) { handler }] where the handler returns. *)
Definition tryCatch {A} (body : Completion A) (handler : Error -> A)
  : Completion A :=
  match body with
  | Return a => Return a
  | Throw e => Return (handler e)
  end.

End JS.

Import JS.

Notation "'await' x <- c ; k" := (bind c (fun x => k))
  (at level 10, x name, c at level 100, k at level 200,
   format "'[v' 'await'  x  <-  c ; '/' k ']'").

(** ** Numbers *)

Module Num.

(** The values [parseInt] returns.  [Num z] is the mathematical integer
    the digits denote ([-0] is [Num 0]: both print as [0], and so do their
    halves).  A JavaScript number is a binary64 float: it is this integer,
    its half is exact and both print in plain decimal notation whenever
    [|z| < 2^53]; the theorems on the size line carry that bound. *)
Inductive Number : Type :=
| NaN
| Num (z : Z).

Definition bytes (l : list nat) : string :=
  fold_right (fun n s => String (ascii_of_nat n) s) EmptyString l.

(** [WhiteSpace] and [LineTerminator] of ECMAScript, UTF-8 encoded: TAB,
    LF, VT, FF, CR, SP, U+00A0, U+1680, U+2000..U+200A, U+2028, U+2029,
    U+202F, U+205F, U+3000, U+FEFF. *)
Definition whiteSpace : list string :=
  map bytes
    ([[9]; [10]; [11]; [12]; [13]; [32]; [194; 160]; [225; 154; 128]]
     ++ map (fun k => [226; 128; 128 + k]) (seq 0 11)
     ++ [[226; 128; 168]; [226; 128; 169]; [226; 128; 175];
         [226; 129; 159]; [227; 128; 128]; [239; 187; 191]])%list.

(** [stripPrefix p s] is the rest of [s] after its prefix [p]. *)
Fixpoint stripPrefix (p s : string) : option string :=
  match p with
  | EmptyString => Some s
  | String a p' =>
      match s with
      | EmptyString => None
      | String c s' =>
          if Ascii.eqb a c then stripPrefix p' s' else None
      end
  end.

Fixpoint stripAny (ps : list string) (s : string) : option string :=
  match ps with
  | [] => None
  | p :: ps' =>
      match stripPrefix p s with
      | Some r => Some r
      | None => stripAny ps' s
      end
  end.

Fixpoint trimStart_go (fuel : nat) (s : string) : string :=
  match fuel with
  | O => s
  | S fuel' =>
      match stripAny whiteSpace s with
      | Some r => trimStart_go fuel' r
      | None => s
      end
  end.

(** [TrimString(s, start)]. Every white space has at least one byte, so
    the length of [s] is fuel enough. *)
Definition trimStart (s : string) : string :=
  trimStart_go (String.length s) s.

(** The value of [c] as a digit, when it is a digit of the radix. *)
Definition digitValue (radix : Z) (c : ascii) : option Z :=
  let n := Z.of_nat (nat_of_ascii c) in
  let d :=
    if (48 <=? n)%Z && (n <=? 57)%Z then Some (n - 48)%Z
    else if (97 <=? n)%Z && (n <=? 122)%Z then Some (n - 87)%Z
    else if (65 <=? n)%Z && (n <=? 90)%Z then Some (n - 55)%Z
    else None in
  match d with
  | Some v => if (v <? radix)%Z then Some v else None
  | None => None
  end.

(** The longest prefix of [s] made of digits, as an integer; [NaN] when
    that prefix is empty ([seen] is false until a digit is read). *)
Fixpoint digits (radix : Z) (s : string) (acc : Z) (seen : bool) : Number :=
  match s with
  | EmptyString => if seen then Num acc else NaN
  | String c s' =>
      match digitValue radix c with
      | Some d => digits radix s' (acc * radix + d)%Z true
      | None => if seen then Num acc else NaN
      end
  end.

(** [parseInt(string)] with no radix argument (ECMAScript 19.2.5). *)
Definition parseInt (inputString : string) : Number :=
  let trimmed := trimStart inputString in
  let '(sign, unsigned) :=
    match trimmed with
    | String c rest =>
        if Ascii.eqb c "-" then ((-1)%Z, rest)
        else if Ascii.eqb c "+" then (1%Z, rest)
        else (1%Z, trimmed)
    | EmptyString => (1%Z, trimmed)
    end in
  let '(R, body) :=
    match stripAny ["0x"; "0X"] unsigned with
    | Some rest => (16%Z, rest)
    | None => (10%Z, unsigned)
    end in
  match digits R body 0%Z false with
  | Num mathInt => Num (sign * mathInt)%Z
  | NaN => NaN
  end.

(** [`${val}`]. *)
Definition toString (val : Number) : string :=
  match val with
  | NaN => "NaN"
  | Num z => pretty z
  end.

(** [`${val/2}`]: the exact half, with the fraction [.5] for an odd
    value. *)
Definition halfToString (val : Number) : string :=
  match val with
  | NaN => "NaN"
  | Num z =>
      if Z.even z then pretty (z / 2)%Z
      else (if (z <? 0)%Z then "-" else EmptyString)
           +:+ pretty (Z.abs z / 2)%Z +:+ ".5"
  end.

End Num.

Import Num.

(** ** The document object model *)

Module DOM.

(** An element: its qualified name, its attributes in source order and
    its child elements in document order.  Character data, comments and
    processing instructions are left out: no call the program makes
    observes them. *)
#[warnings="-register-all"]
Inductive Element : Type :=
| Elem (tagName : string) (attributes : list (string * string))
       (children : list Element).

Definition tagName (e : Element) : string :=
  match e with Elem t _ _ => t end.
Definition attributes (e : Element) : list (string * string) :=
  match e with Elem _ a _ => a end.
Definition children (e : Element) : list Element :=
  match e with Elem _ _ c => c end.

(** [e.getAttribute(qualifiedName)]: the value of the first attribute of
    that name, [null] when there is none. *)
Fixpoint lookupAttr (l : list (string * string)) (q : string)
  : option string :=
  match l with
  | [] => None
  | (k, v) :: l' => if String.eqb k q then Some v else lookupAttr l' q
  end.

Definition getAttribute (e : Element) (qualifiedName : string)
  : option string :=
  lookupAttr (attributes e) qualifiedName.

(** The descendants of [e] in tree order (preorder, depth first). *)
Fixpoint descendants (e : Element) : list Element :=
  match e with
  | Elem _ _ cs =>
      (fix go (l : list Element) : list Element :=
         match l with
         | [] => []
         | c :: l' => c :: descendants c ++ go l'
         end) cs
  end.

(** The filter of [getElementsByTagName] in an XML document: the
    qualified name matches exactly; the name [*] matches every element. *)
Definition matches (qualifiedName : string) (e : Element) : bool :=
  String.eqb qualifiedName "*" || String.eqb (tagName e) qualifiedName.

(** [e.getElementsByTagName(qualifiedName)]: the matching descendants of
    [e], itself excluded, in tree order. *)
Definition getElementsByTagName (e : Element) (qualifiedName : string)
  : list Element :=
  List.filter (matches qualifiedName) (descendants e).

(** A parsed XML document has exactly one root element. *)
Record Document : Type := { documentElement : Element }.

(** [doc.getElementsByTagName(qualifiedName)]: the root element is a
    descendant of the document. *)
Definition Document_getElementsByTagName (doc : Document)
           (qualifiedName : string) : list Element :=
  List.filter (matches qualifiedName)
              (documentElement doc :: descendants (documentElement doc)).

(** [collection[0]]: the first element, [undefined] on an empty
    collection. *)
Definition item0 (collection : list Element) : option Element :=
  collection !! 0%nat.

End DOM.

Import DOM.

(** ** The platform: archive reader and XML parser *)

(** One entry of an opened archive.  [dir] tells a folder from a file;
    [async_text] is what awaiting [entry.async("text")] gives: the decoded
    text, or an exception when the entry cannot be inflated. *)
Record ZipObject : Type := {
  dir : bool;
  async_text : Completion string
}.

(** An opened archive: its entries by path ([zip.files]). *)
Record JSZip : Type := { files : gmap string ZipObject }.

(** [zip.file(name)]: the file entry at exactly that path, [null] when
    there is none or when the entry is a folder. *)
Definition JSZip_file (zip : JSZip) (name : string) : option ZipObject :=
  match files zip !! name with
  | Some entry => if dir entry then None else Some entry
  | None => None
  end.

(** The services [parseDocxStyles] calls.
    - [loadAsync file] is [await JSZip.loadAsync(file)]: it throws when the
      bytes are not a ZIP archive.
    - [parseFromString text] is
      [new DOMParser().parseFromString(text, "text/xml")].  It is total: by
      the DOM Parsing standard the call never throws on the text it is
      given; on a well-formedness error it returns a document whose root is
      a [parsererror] element. *)
Class Platform : Type := {
  File : Type;
  loadAsync : File -> Completion JSZip;
  parseFromString : string -> Document
}.

(** ** The report generator *)

Definition notFoundMessage : string :=
  "无法读取文档样式定义 (word/styles.xml 不存在)".

Definition parseFailureMessage : string :=
  "无法解析 .docx 内部 XML 结构，仅基于文本内容分析。".

Definition reportHeader : string :=
  "【文档内部样式定义分析 (基于 word/styles.xml)】:" +:+ LF.

Definition boldIndicator : string := LF +:+ "  - 加粗: 是".

(** The body of the [for] loop (source lines 37 to 85): the report after
    the style element [style] has been handled. *)
Definition processStyle (report : string) (style : Element) : string :=
  let styleId := getAttribute style "w:styleId" in
  let nameNode := item0 (getElementsByTagName style "w:name") in
  let name :=
    match nameNode with
    | Some nameNode => getAttribute nameNode "w:val"
    | None => styleId
    end in
  let isHeading :=
    option_map (fun s => includes (toLowerCase s) "heading") styleId in
  let isNormal :=
    truthy (option_map (fun s => includes (toLowerCase s) "normal") styleId)
    || strictEq name "Normal" in
  if truthy isHeading || isNormal then
    let report :=
      report +:+ LF +:+ "[样式名称: " +:+ tmpl name
             +:+ " (ID: " +:+ tmpl styleId +:+ ")]" in
    let rPr := item0 (getElementsByTagName style "w:rPr") in
    let report :=
      match rPr with
      | Some rPr =>
          let rFonts := item0 (getElementsByTagName rPr "w:rFonts") in
          let report :=
            match rFonts with
            | Some rFonts =>
                let ascii := getAttribute rFonts "w:ascii" in
                let eastAsia := getAttribute rFonts "w:eastAsia" in
                report +:+ LF +:+ "  - 字体: 西文=" +:+ DQ
                       +:+ orElse ascii "默认" +:+ DQ +:+ ", 中文=" +:+ DQ
                       +:+ orElse eastAsia "默认" +:+ DQ
            | None => report
            end in
          let sz := item0 (getElementsByTagName rPr "w:sz") in
          let report :=
            match sz with
            | Some sz =>
                let val := parseInt (orElse (getAttribute sz "w:val") "0") in
                report +:+ LF +:+ "  - 字号: " +:+ toString val
                       +:+ " (即 " +:+ halfToString val +:+ "pt)"
            | None => report
            end in
          let b := item0 (getElementsByTagName rPr "w:b") in
          match b with
          | Some b =>
              if negb (strictEq (getAttribute b "w:val") "0")
              then report +:+ boldIndicator
              else report
          | None => report
          end
      | None => report
      end in
    let pPr := item0 (getElementsByTagName style "w:pPr") in
    match pPr with
    | Some pPr =>
        let spacing := item0 (getElementsByTagName pPr "w:spacing") in
        let report :=
          match spacing with
          | Some spacing =>
              let line := getAttribute spacing "w:line" in
              let lineRule := getAttribute spacing "w:lineRule" in
              report +:+ LF +:+ "  - 行距: " +:+ tmpl line
                     +:+ " (规则: " +:+ tmpl lineRule +:+ ")"
          | None => report
          end in
        let jc := item0 (getElementsByTagName pPr "w:jc") in
        match jc with
        | Some jc =>
            report +:+ LF +:+ "  - 对齐: " +:+ tmpl (getAttribute jc "w:val")
        | None => report
        end
    | None => report
    end
  else report.

(** The loop [for (let i = 0; i < styles.length; i++)]: [fuel] bounds the
    number of iterations, [i] is the index, [report] the text so far. *)
Fixpoint forLoop (fuel : nat) (styles : list Element) (i : nat)
         (report : string) : string :=
  match fuel with
  | O => report
  | S fuel' =>
      if (i <? length styles)%nat then
        match styles !! i with
        | Some style => forLoop fuel' styles (S i) (processStyle report style)
        | None => report
        end
      else report
  end.

Section ParseDocxStyles.

Context {platform : Platform}.

(** The [try] block of [parseDocxStyles] (source lines 17 to 88). *)
Definition tryBlock (file : File) : Completion string :=
  await zip <- loadAsync file;
  await stylesXml <-
    match JSZip_file zip "word/styles.xml" with
    | Some entry => (await text <- async_text entry; Return (Some text))
    | None => Return None
    end;
  if falsy stylesXml then Return notFoundMessage
  else
    match stylesXml with
    | Some stylesXml =>
        let xmlDoc := parseFromString stylesXml in
        let styles := Document_getElementsByTagName xmlDoc "w:style" in
        let report := reportHeader in
        let report := forLoop (length styles) styles 0 report in
        Return report
    | None => Return notFoundMessage  (* not reached: undefined is falsy *)
    end.

(** [parseDocxStyles(file)], awaited: the [catch] clause turns every
    exception of the [try] block into the general failure message (it also
    logs the exception to the console, which no result depends on). *)
Definition parseDocxStyles (file : File) : Completion string :=
  tryCatch (tryBlock file) (fun e => parseFailureMessage).

End ParseDocxStyles.

(** ** The layout of the report, as the specification describes it *)

Module Layout.

(** The display name of a style: the value of its name element, and the
    identifier when it has no name element. *)
Definition displayName (style : Element) : option string :=
  match item0 (getElementsByTagName style "w:name") with
  | Some nameNode => getAttribute nameNode "w:val"
  | None => getAttribute style "w:styleId"
  end.

(** The relevance filter, in the words of the specification. *)
Definition relevant (style : Element) : Prop :=
  (exists id, getAttribute style "w:styleId" = Some id
              /\ ci_contains "heading" id)
  \/ (exists id, getAttribute style "w:styleId" = Some id
                 /\ ci_contains "normal" id)
  \/ displayName style = Some "Normal".

(** The same filter as a boolean. *)
Definition included (style : Element) : bool :=
  match getAttribute style "w:styleId" with
  | Some id =>
      includes (toLowerCase id) "heading"
      || includes (toLowerCase id) "normal"
  | None => false
  end
  || strictEq (displayName style) "Normal".

(** Header line of a block: display name and identifier. *)
Definition headerLine (style : Element) : string :=
  LF +:+ "[样式名称: " +:+ tmpl (displayName style)
     +:+ " (ID: " +:+ tmpl (getAttribute style "w:styleId") +:+ ")]".

(** Font line of a run-properties container. *)
Definition fontLine (rPr : Element) : string :=
  match item0 (getElementsByTagName rPr "w:rFonts") with
  | Some rFonts =>
      LF +:+ "  - 字体: 西文=" +:+ DQ
         +:+ orElse (getAttribute rFonts "w:ascii") "默认" +:+ DQ
         +:+ ", 中文=" +:+ DQ
         +:+ orElse (getAttribute rFonts "w:eastAsia") "默认" +:+ DQ
  | None => EmptyString
  end.

(** The size line for a parsed size. *)
Definition sizeLineOf (val : Number) : string :=
  LF +:+ "  - 字号: " +:+ toString val
     +:+ " (即 " +:+ halfToString val +:+ "pt)".

Definition sizeLine (rPr : Element) : string :=
  match item0 (getElementsByTagName rPr "w:sz") with
  | Some sz => sizeLineOf (parseInt (orElse (getAttribute sz "w:val") "0"))
  | None => EmptyString
  end.

(** What the bold element [b] contributes: the indicator unless its value
    is the string [0]. *)
Definition boldOf (b : Element) : string :=
  if strictEq (getAttribute b "w:val") "0" then EmptyString
  else boldIndicator.

Definition boldLine (rPr : Element) : string :=
  match item0 (getElementsByTagName rPr "w:b") with
  | Some b => boldOf b
  | None => EmptyString
  end.

Definition runLines (style : Element) : string :=
  match item0 (getElementsByTagName style "w:rPr") with
  | Some rPr => fontLine rPr +:+ sizeLine rPr +:+ boldLine rPr
  | None => EmptyString
  end.

Definition spacingLineOf (line lineRule : option string) : string :=
  LF +:+ "  - 行距: " +:+ tmpl line +:+ " (规则: " +:+ tmpl lineRule +:+ ")".

Definition spacingLine (pPr : Element) : string :=
  match item0 (getElementsByTagName pPr "w:spacing") with
  | Some spacing =>
      spacingLineOf (getAttribute spacing "w:line")
                    (getAttribute spacing "w:lineRule")
  | None => EmptyString
  end.

Definition jcLineOf (val : option string) : string :=
  LF +:+ "  - 对齐: " +:+ tmpl val.

Definition jcLine (pPr : Element) : string :=
  match item0 (getElementsByTagName pPr "w:jc") with
  | Some jc => jcLineOf (getAttribute jc "w:val")
  | None => EmptyString
  end.

Definition paragraphLines (style : Element) : string :=
  match item0 (getElementsByTagName style "w:pPr") with
  | Some pPr => spacingLine pPr +:+ jcLine pPr
  | None => EmptyString
  end.

(** The block of a style: empty when the filter rejects it. *)
Definition styleBlock (style : Element) : string :=
  if included style
  then headerLine style +:+ runLines style +:+ paragraphLines style
  else EmptyString.

(** Concatenation of blocks, in list order. *)
Definition blocks (styles : list Element) : string :=
  fold_right (fun style rest => styleBlock style +:+ rest)
             EmptyString styles.

(** The integer-division reading of the point equivalent: the size line
    as it would be if the half were rounded down to an integer. *)
Definition sizeLineIntegerDivision (z : Z) : string :=
  LF +:+ "  - 字号: " +:+ pretty z +:+ " (即 " +:+ pretty (z / 2)%Z +:+ "pt)".

End Layout.

Import Layout.

(** ** Sample documents and a test platform *)

Module Sample.

Definition leaf (tag : string) (attrs : list (string * string)) : Element :=
  Elem tag attrs [].

Definition spacing360 : Element :=
  leaf "w:spacing" [("w:line", "360"); ("w:lineRule", "auto")].

(** The body-text style, in 10.5 point type (21 half points). *)
Definition normal_sz : Element := leaf "w:sz" [("w:val", "21")].

Definition normal_rPr : Element :=
  Elem "w:rPr" [] [leaf "w:rFonts" [("w:eastAsia", "SimSun")]; normal_sz].

Definition normal : Element :=
  Elem "w:style" [("w:type", "paragraph"); ("w:default", "1");
                  ("w:styleId", "Normal")]
    [ leaf "w:name" [("w:val", "Normal")];
      Elem "w:pPr" [] [spacing360; leaf "w:jc" [("w:val", "both")]];
      normal_rPr ].

(** The heading of the specification's example: bold with no value. *)
Definition heading1_b : Element := leaf "w:b" [].

Definition heading1_sz : Element := leaf "w:sz" [("w:val", "24")].

Definition heading1_rPr : Element :=
  Elem "w:rPr" []
    [ leaf "w:rFonts" [("w:ascii", "Times New Roman");
                       ("w:eastAsia", "SimSun")];
      heading1_b; heading1_sz ].

Definition heading1_jc : Element := leaf "w:jc" [("w:val", "center")].

Definition heading1_pPr : Element :=
  Elem "w:pPr" [] [spacing360; heading1_jc].

Definition heading1 : Element :=
  Elem "w:style" [("w:type", "paragraph"); ("w:styleId", "Heading1")]
    [leaf "w:name" [("w:val", "heading 1")]; heading1_pPr; heading1_rPr].

Definition caption : Element :=
  Elem "w:style" [("w:type", "paragraph"); ("w:styleId", "Caption")]
    [ leaf "w:name" [("w:val", "caption")];
      Elem "w:rPr" []
        [ leaf "w:b" [("w:val", "0")];
          leaf "w:sz" [("w:val", "20")] ] ].

(** A heading without a name element whose bold element is switched
    off. *)
Definition heading2_b : Element := leaf "w:b" [("w:val", "0")].

Definition heading2_rPr : Element := Elem "w:rPr" [] [heading2_b].

Definition heading2 : Element :=
  Elem "w:style" [("w:type", "paragraph"); ("w:styleId", "Heading2")]
    [heading2_rPr].

Definition stylesDoc : Document :=
  {| documentElement :=
       Elem "w:styles" [("xmlns:w", "urn:w")]
         [normal; heading1; caption; heading2] |}.

(** The text of [stylesDoc]. *)
Definition stylesXml : string :=
  "<w:styles xmlns:w='urn:w'>"
  +:+ "<w:style w:type='paragraph' w:default='1' w:styleId='Normal'>"
  +:+ "<w:name w:val='Normal'/>"
  +:+ "<w:pPr><w:spacing w:line='360' w:lineRule='auto'/>"
  +:+ "<w:jc w:val='both'/></w:pPr>"
  +:+ "<w:rPr><w:rFonts w:eastAsia='SimSun'/><w:sz w:val='21'/></w:rPr>"
  +:+ "</w:style>"
  +:+ "<w:style w:type='paragraph' w:styleId='Heading1'>"
  +:+ "<w:name w:val='heading 1'/>"
  +:+ "<w:pPr><w:spacing w:line='360' w:lineRule='auto'/>"
  +:+ "<w:jc w:val='center'/></w:pPr>"
  +:+ "<w:rPr><w:rFonts w:ascii='Times New Roman' w:eastAsia='SimSun'/>"
  +:+ "<w:b/><w:sz w:val='24'/></w:rPr>"
  +:+ "</w:style>"
  +:+ "<w:style w:type='paragraph' w:styleId='Caption'>"
  +:+ "<w:name w:val='caption'/>"
  +:+ "<w:rPr><w:b w:val='0'/><w:sz w:val='20'/></w:rPr>"
  +:+ "</w:style>"
  +:+ "<w:style w:type='paragraph' w:styleId='Heading2'>"
  +:+ "<w:rPr><w:b w:val='0'/></w:rPr>"
  +:+ "</w:style>"
  +:+ "</w:styles>".

(** A document with one style that the filter rejects. *)
Definition captionDoc : Document :=
  {| documentElement := Elem "w:styles" [("xmlns:w", "urn:w")] [caption] |}.

Definition captionXml : string :=
  "<w:styles xmlns:w='urn:w'>"
  +:+ "<w:style w:type='paragraph' w:styleId='Caption'>"
  +:+ "<w:name w:val='caption'/>"
  +:+ "<w:rPr><w:b w:val='0'/><w:sz w:val='20'/></w:rPr>"
  +:+ "</w:style>"
  +:+ "</w:styles>".

(** The document the parser returns on a well-formedness error. *)
Definition parserErrorDoc : Document :=
  {| documentElement :=
       leaf "parsererror"
            [("xmlns",
              "http://www.mozilla.org/newlayout/xml/parsererror.xml")] |}.

(** A styles part cut off in the middle of its first tag. *)
Definition truncatedXml : string := "<w:styles xmlns:w='urn:w'><w:sty".

(** An upload, by what the archive reader finds in it. *)
Inductive Upload : Type :=
| NotAnArchive
| Archive (zip : JSZip).

(** A test double of the platform: the parser knows the two sample texts
    and reports a well-formedness error on every other text. *)
Definition testPlatform : Platform :=
  {| File := Upload;
     loadAsync := fun file =>
       match file with
       | NotAnArchive => Throw ArchiveError
       | Archive zip => Return zip
       end;
     parseFromString := fun text =>
       if String.eqb text stylesXml then stylesDoc
       else if String.eqb text captionXml then captionDoc
       else parserErrorDoc |}.

Definition textEntry (text : string) : ZipObject :=
  {| dir := false; async_text := Return text |}.

(** An archive with the given text as its styles part. *)
Definition zipWith (text : string) : JSZip :=
  {| files := {[ "word/styles.xml" := textEntry text;
                 "word/document.xml" := textEntry "<w:document/>" ]} |}.

Definition docxWith (text : string) : Upload := Archive (zipWith text).

(** An archive without a styles part. *)
Definition zipWithoutStyles : JSZip :=
  {| files := {[ "word/document.xml" := textEntry "<w:document/>" ]} |}.

Definition docxWithoutStyles : Upload := Archive zipWithoutStyles.

(** A package whose styles part cannot be inflated. *)
Definition docxUnreadable : Upload :=
  Archive {| files := {[ "word/styles.xml" :=
                           {| dir := false;
                              async_text := Throw ReadError |} ]} |}.

End Sample.

(** ** Styles at the edges of the format *)

Module Edge.

Import Sample.

(** A heading whose elements are there but carry no usable value: a fonts
    element with an empty Latin font and no East-Asian font, a size
    element without a value, a spacing element without line attributes and
    a justification element without a value. *)
Definition heading3_rFonts : Element :=
  leaf "w:rFonts" [("w:ascii", EmptyString); ("w:hAnsi", "Arial")].

Definition heading3_sz : Element := leaf "w:sz" [].

Definition heading3_rPr : Element :=
  Elem "w:rPr" [] [heading3_rFonts; heading3_sz].

Definition heading3_spacing : Element :=
  leaf "w:spacing" [("w:before", "240")].

Definition heading3_jc : Element := leaf "w:jc" [].

Definition heading3_pPr : Element :=
  Elem "w:pPr" [] [heading3_spacing; heading3_jc].

Definition heading3 : Element :=
  Elem "w:style" [("w:type", "paragraph"); ("w:styleId", "Heading3")]
    [heading3_rPr; heading3_pPr].

(** A heading whose size is not a number. *)
Definition heading4_sz : Element := leaf "w:sz" [("w:val", "large")].

Definition heading4_rPr : Element := Elem "w:rPr" [] [heading4_sz].

Definition heading4 : Element :=
  Elem "w:style" [("w:type", "paragraph"); ("w:styleId", "Heading4")]
    [heading4_rPr].

(** The heading of the specification's example with what a word
    processor writes around it: more attributes, the style it is based on,
    the style that follows it, and the conditional formatting of a table
    style with run properties of its own. *)
Definition heading1_based : Element :=
  Elem "w:style" [("w:type", "paragraph"); ("w:customStyle", "1");
                  ("w:styleId", "Heading1")]
    [ leaf "w:basedOn" [("w:val", "Normal")];
      leaf "w:next" [("w:val", "Normal")];
      leaf "w:name" [("w:val", "heading 1")];
      leaf "w:uiPriority" [("w:val", "9")];
      heading1_pPr; heading1_rPr;
      Elem "w:tblStylePr" [("w:type", "firstRow")]
        [Elem "w:rPr" [] [leaf "w:sz" [("w:val", "48")]]] ].

(** A style without an identifier, named [Normal]. *)
Definition unnamedNormal : Element :=
  Elem "w:style" [("w:type", "paragraph")]
    [leaf "w:name" [("w:val", "Normal")]].

(** Run properties of the paragraph mark, nested in paragraph properties
    that come before the run properties of the style itself. *)
Definition markRPr : Element :=
  Elem "w:rPr" [] [leaf "w:sz" [("w:val", "18")]].

Definition nestedHeading : Element :=
  Elem "w:style" [("w:type", "paragraph"); ("w:styleId", "Heading5")]
    [ Elem "w:pPr" [] [markRPr; heading1_jc];
      Elem "w:rPr" [] [leaf "w:sz" [("w:val", "32")]] ].

End Edge.

(** ** More of the string library *)

Module Trim.

(** Strips, up to [fuel] times, one of [patterns] from the start of [s]. *)
Fixpoint stripLeading (patterns : list string) (fuel : nat) (s : string)
  : string :=
  match fuel with
  | O => s
  | S fuel' =>
      match stripAny patterns s with
      | Some rest => stripLeading patterns fuel' rest
      | None => s
      end
  end.

(** [s.trimEnd()]: the white space of [trimStart], taken off the end. *)
Definition trimEnd (s : string) : string :=
  String.rev
    (stripLeading (map String.rev whiteSpace) (String.length s)
                  (String.rev s)).

(** [s.trim()]. *)
Definition trim (s : string) : string := trimEnd (trimStart s).

(** [s.endsWith(suffix)]. *)
Definition endsWith (s suffix : string) : bool :=
  String.prefix (String.rev suffix) (String.rev s).

(** [s.startsWith(prefix)]. *)
Definition startsWith (s prefix : string) : bool := String.prefix prefix s.

(** [!s] for a string: only the empty string is falsy. *)
Definition blank (s : string) : bool := isEmpty s.

End Trim.

Import Trim.

(** ** The step indicator (components/StepIndicator.tsx) *)

Module Wizard.

Inductive AppStep : Type := UPLOAD | ANALYZING | REPORT | FIXING | RESULT.

(** [a === b] on steps. *)
Definition AppStep_eqb (a b : AppStep) : bool :=
  match a, b with
  | UPLOAD, UPLOAD | ANALYZING, ANALYZING | REPORT, REPORT
  | FIXING, FIXING | RESULT, RESULT => true
  | _, _ => false
  end.

(** An entry of the table [steps]; the icon plays no part in the logic. *)
Record StepItem : Type := { id : AppStep; label : string }.

Definition steps : list StepItem :=
  [ {| id := UPLOAD; label := "上传" |};
    {| id := ANALYZING; label := "分析" |};
    {| id := REPORT; label := "审查" |};
    {| id := FIXING; label := "修复" |};
    {| id := RESULT; label := "结果" |} ].

(** [array.findIndex(p)]: the index of the first element that satisfies
    [p], and -1 when there is none. *)
Fixpoint findIndexFrom {A : Type} (p : A -> bool) (l : list A) (i : Z) : Z :=
  match l with
  | [] => (-1)%Z
  | x :: l' => if p x then i else findIndexFrom p l' (i + 1)%Z
  end.

Definition findIndex {A : Type} (p : A -> bool) (l : list A) : Z :=
  findIndexFrom p l 0%Z.

Definition currentIndex (currentStep : AppStep) : Z :=
  findIndex (fun s => AppStep_eqb (id s) currentStep) steps.

(** [isClickable(stepIndex, stepId)]; [hasHandler] tells whether the
    optional property [onStepClick] was given. *)
Definition isClickable (hasHandler : bool) (currentStep : AppStep)
           (stepIndex : Z) (stepId : AppStep) : bool :=
  if negb hasHandler then false
  else if AppStep_eqb stepId UPLOAD then true
  else (stepIndex <? currentIndex currentStep)%Z.

(** What is rendered for one step. *)
Record StepButton : Type := {
  button_step : AppStep;
  isActive : bool;
  isCompleted : bool;
  isPending : bool;
  clickable : bool
}.

(** The body of [steps.map((step, index) => ...)]. *)
Definition renderStep (hasHandler : bool) (currentStep : AppStep)
           (index : nat) (step : StepItem) : StepButton :=
  let index := Z.of_nat index in
  {| button_step := id step;
     isActive := (index =? currentIndex currentStep)%Z;
     isCompleted := (index <? currentIndex currentStep)%Z;
     isPending := (currentIndex currentStep <? index)%Z;
     clickable := isClickable hasHandler currentStep index (id step) |}.

Definition renderSteps (hasHandler : bool) (currentStep : AppStep)
  : list StepButton :=
  imap (renderStep hasHandler currentStep) steps.

(** A click on the button at position [index]: a button that is not
    clickable is disabled, and its handler guards on [clickable] as well;
    a clickable one calls [onStepClick] with its step. *)
Definition clickButton {S : Type} (onStepClick : option (S -> AppStep -> S))
           (currentStep : AppStep) (index : nat) (st : S) : S :=
  match renderSteps (bool_decide (is_Some onStepClick)) currentStep !! index,
        onStepClick with
  | Some button, Some handler =>
      if clickable button then handler st (button_step button) else st
  | _, _ => st
  end.

End Wizard.

Import Wizard.

(** ** The prompt of the analysis (services/geminiService.ts) *)

Module Gemini.

(** One part of the request contents. *)
Inductive Part : Type :=
| InlineData (mimeType data : string)
| TextPart (text : string).

Definition referenceNote : string :=
  "这是原始的【目标格式要求】文件供参考。".

Definition requirementsIntro : string :=
  "这是整理后的【目标格式要求】文字说明（以此为准）：".

(** The text around the style analysis (source lines 93 to 100). *)
Definition evidenceBefore : string :=
  LF +:+ "      === 核心证据：.docx 文件内部样式定义 (Styles.xml 解析结果) ==="
  +:+ LF +:+ "      AI 请注意：这是从 Word 文档底层 XML 中提取的真实样式数据。"
  +:+ LF +:+ "      在判断“字体”、“字号”、“行距”是否合规时，**请优先依据此数据**，而不是下方的正文文本。"
  +:+ LF +:+ "      "
  +:+ LF +:+ "      ".

Definition evidenceAfter : string :=
  LF +:+ "      ==========================================================="
  +:+ LF +:+ "      ".

(** The text around the thesis content (source lines 106 to 116). *)
Definition contentBefore : string :=
  LF +:+ "    === 待分析的论文正文内容 (".

Definition contentMiddle : string :=
  ") ==="
  +:+ LF +:+ "    (此部分主要用于检查标题结构、引用格式、标点符号等语义问题，字体/行距问题请参考上面的 XML 样式定义)"
  +:+ LF +:+ "    " +:+ DQ +:+ DQ +:+ DQ
  +:+ LF +:+ "    ".

Definition contentAfter : string :=
  " "
  +:+ LF +:+ "    " +:+ DQ +:+ DQ +:+ DQ
  +:+ LF +:+ "    (注：如果内容过长已被截断)"
  +:+ LF +:+ "    ================"
  +:+ LF +:+ "    "
  +:+ LF +:+ "    请根据上述【格式要求】分析用户的论文。"
  +:+ LF +:+ "    ".

Definition referencePart : Part := TextPart referenceNote.

Definition requirementsPart (formatRequirements : string) : Part :=
  TextPart (requirementsIntro +:+ LF +:+ formatRequirements).

Definition evidencePart (docxStyleAnalysis : string) : Part :=
  TextPart (evidenceBefore +:+ docxStyleAnalysis +:+ evidenceAfter).

Definition contentPart (isHtml : bool) (shown : string) : Part :=
  TextPart (contentBefore +:+ (if isHtml then "HTML结构" else "纯文本")
            +:+ contentMiddle +:+ shown +:+ contentAfter).

Section Parts.

(** [s.substring(start, end)] counts UTF-16 code units, which the byte
    reading of strings does not expose; it is taken as given. *)
Variable substring : string -> N -> N -> string.

(** The construction of [parts] in [analyzeText] (source lines 69 to
    117).  An optional argument that was not passed is [None]. *)
Definition analysisParts (content formatRequirements : string)
           (docxStyleAnalysis formatFileBase64 formatFileMimeType
            : option string)
           (isHtml : bool) : list Part :=
  let parts : list Part := [] in
  let parts :=
    match formatFileBase64, formatFileMimeType with
    | Some data, Some mimeType =>
        if negb (blank data) && negb (blank mimeType)
        then (parts ++ [InlineData mimeType data]) ++ [referencePart]
        else parts
    | _, _ => parts
    end in
  let parts :=
    if negb (blank formatRequirements)
       && (0 <? String.length (trim formatRequirements))%nat
    then parts ++ [requirementsPart formatRequirements]
    else parts in
  let parts :=
    match docxStyleAnalysis with
    | Some analysis =>
        if negb (blank analysis) then parts ++ [evidencePart analysis]
        else parts
    | None => parts
    end in
  parts ++ [contentPart isHtml (substring content 0%N 30000%N)].

End Parts.

(** The groups of parts that precede the thesis content, each empty or
    not by the arguments. *)
Definition fileParts (formatFileBase64 formatFileMimeType : option string)
  : list Part :=
  match formatFileBase64, formatFileMimeType with
  | Some data, Some mimeType =>
      if negb (blank data) && negb (blank mimeType)
      then [InlineData mimeType data; referencePart]
      else []
  | _, _ => []
  end.

Definition requirementsParts (formatRequirements : string) : list Part :=
  if negb (blank formatRequirements)
     && (0 <? String.length (trim formatRequirements))%nat
  then [requirementsPart formatRequirements]
  else [].

Definition evidenceParts (docxStyleAnalysis : option string) : list Part :=
  match docxStyleAnalysis with
  | Some analysis =>
      if negb (blank analysis) then [evidencePart analysis] else []
  | None => []
  end.

(** The kind of a part, read off its first characters. *)
Inductive PartKind : Type :=
| FileKind | ReferenceKind | RequirementsKind | EvidenceKind | ContentKind
| OtherKind.

Definition partKind (part : Part) : PartKind :=
  match part with
  | InlineData _ _ => FileKind
  | TextPart text =>
      if String.prefix "这是原" text then ReferenceKind
      else if String.prefix "这是整" text then RequirementsKind
      else if String.prefix (LF +:+ "      ") text then EvidenceKind
      else if String.prefix (LF +:+ "    =") text then ContentKind
      else OtherKind
  end.

End Gemini.

Import Gemini.

(** ** Settled promises and JSON values *)

Module Async.

(** An exception object, by what the program reads of it: its [name], its
    [message], and whether it is an instance of [SyntaxError]. *)
Record Reason : Type := {
  errorName : string;
  errorMessage : string;
  isSyntaxError : bool
}.

(** An awaited promise whose rejection the program inspects. *)
Inductive Settled (A : Type) : Type :=
| Fulfilled (value : A)
| Rejected (reason : Reason).
Arguments Fulfilled {A} value.
Arguments Rejected {A} reason.

(** [new DOMException('Aborted', 'AbortError')]. *)
Definition abortError : Reason :=
  {| errorName := "AbortError"; errorMessage := "Aborted";
     isSyntaxError := false |}.

(** [new Error(message)]. *)
Definition plainError (message : string) : Reason :=
  {| errorName := "Error"; errorMessage := message;
     isSyntaxError := false |}.

(** The test of both [catch] clauses:
    [error.name === 'AbortError' || error.message === 'Aborted']. *)
Definition abortLike (error : Reason) : bool :=
  String.eqb (errorName error) "AbortError"
  || String.eqb (errorMessage error) "Aborted".

(** A value that [JSON.parse] returns; [number] is the type of numbers. *)
#[warnings="-register-all"]
Inductive Json (number : Type) : Type :=
| JNull
| JBool (b : bool)
| JNumber (n : number)
| JString (s : string)
| JArray (items : list (Json number))
| JObject (members : list (string * Json number)).
Arguments JNull {number}.
Arguments JBool {number} b.
Arguments JNumber {number} n.
Arguments JString {number} s.
Arguments JArray {number} items.
Arguments JObject {number} members.

(** The value of the last member named [key]: of members with the same
    name [JSON.parse] keeps the last. *)
Fixpoint lastMember {number : Type} (members : list (string * Json number))
         (key : string) : option (Json number) :=
  match members with
  | [] => None
  | (k, v) :: rest =>
      match lastMember rest key with
      | Some later => Some later
      | None => if String.eqb k key then Some v else None
      end
  end.

(** [value.key] for the keys the program reads ([score], [summary],
    [issues]; [type], [originalText], [suggestion]), none of which is a
    built-in property of an array, a string, a number or a boolean:
    reading a property of [null] throws [typeError], an object gives the
    member or [undefined], every other value gives [undefined]. *)
Definition getProp {number : Type} (typeError : Reason)
           (value : Json number) (key : string)
  : Settled (option (Json number)) :=
  match value with
  | JNull => Rejected typeError
  | JObject members => Fulfilled (lastMember members key)
  | _ => Fulfilled None
  end.

(** [text.replace(/pattern/g, '')] for a pattern without special
    characters: every occurrence found when scanning from the left is
    taken out.  [fuel] bounds the number of steps. *)
Fixpoint removeAllFrom (pattern : string) (fuel : nat) (text : string)
  : string :=
  match fuel with
  | O => text
  | S fuel' =>
      match stripPrefix pattern text with
      | Some rest => removeAllFrom pattern fuel' rest
      | None =>
          match text with
          | EmptyString => EmptyString
          | String c rest => String c (removeAllFrom pattern fuel' rest)
          end
      end
  end.

Definition removeAll (pattern text : string) : string :=
  removeAllFrom pattern (S (String.length text)) text.

(** [text.replace(/<[^>]+>/g, '')].  At a [<] the pattern matches when the
    next character is not [>] and a [>] follows later; the match ends at
    the first such [>]. [closeTag rest] is what follows that [>]. *)
Fixpoint closeTag (rest : string) : option string :=
  match rest with
  | EmptyString => None
  | String c rest' =>
      if Ascii.eqb c ">" then Some rest' else closeTag rest'
  end.

Definition matchTag (text : string) : option string :=
  match text with
  | String lt (String c rest) =>
      if Ascii.eqb lt "<" && negb (Ascii.eqb c ">") then closeTag rest
      else None
  | _ => None
  end.

Fixpoint stripTagsFrom (fuel : nat) (text : string) : string :=
  match fuel with
  | O => text
  | S fuel' =>
      match matchTag text with
      | Some rest => stripTagsFrom fuel' rest
      | None =>
          match text with
          | EmptyString => EmptyString
          | String c rest => String c (stripTagsFrom fuel' rest)
          end
      end
  end.

Definition stripTags (text : string) : string :=
  stripTagsFrom (S (String.length text)) text.

End Async.

Import Async.

(** ** The application (App.tsx) *)

Module App.

Inductive ViewMode : Type := preview | edit.



Definition docxMimeType : string :=
  "application/vnd.openxmlformats-officedocument.wordprocessingml.document".

Definition alertNoThesis : string := "请输入需要分析的论文内容。".
Definition alertNoRequirements : string :=
  "请提供格式要求（输入文本或上传 PDF/图片）。".
Definition alertAnalysisFailed : string := "分析失败，请重试。".
Definition alertUnreadableDocx : string :=
  "无法读取 Word 文档，请确保文件未加密且格式正确 (.docx)。".

(** The services of the browser and of the libraries that the application
    calls.
    - [number], [zero]: JavaScript numbers and the number 0;
      [number_toString] prints a number as a template literal does.
    - [js_substring]: [String.prototype.substring].
    - [File_name], [File_type], [File_arrayBuffer]: the properties and the
      method of a [File].
    - [convertToHtml], [extractRawText]: the [value] that the calls of the
      mammoth library give.
    - [readAsText file]: the text a [FileReader] hands to [onload]; [None]
      when the load event never fires.
    - [API_KEY]: [process.env.API_KEY].
    - [JSON_parse]: [JSON.parse], which throws a [SyntaxError] on text
      that is not JSON.
    - [nullPropertyError]: the [TypeError] of reading a property of
      [null]. *)
Class Services {platform : Platform} : Type := {
  number : Type;
  zero : number;
  number_toString : number -> string;
  js_substring : string -> N -> N -> string;
  File_name : File -> string;
  File_type : File -> string;
  ArrayBuffer : Type;
  File_arrayBuffer : File -> Settled ArrayBuffer;
  convertToHtml : ArrayBuffer -> Settled string;
  extractRawText : ArrayBuffer -> Settled string;
  readAsText : File -> option string;
  API_KEY : option string;
  JSON_parse : string -> Settled (Json number);
  nullPropertyError : Reason
}.

Section Application.

Context {platform : Platform} {services : Services}.

(** The result of an analysis.  The entries of [issues] are whatever the
    model returned: the program does not check them. *)
Record AnalysisResult : Type := {
  score : number;
  summary : string;
  issues : list (Json number)
}.

(** The state of the component: one field per [useState].  The loading
    message is left out: timers set it, at times that depend on how long
    the service takes. *)
Record AppState : Type := {
  currentStep : AppStep;
  thesisText : string;
  thesisHtml : string;
  thesisStyleAnalysis : string;
  thesisFile : option File;
  viewMode : ViewMode;
  formatRequirements : string;
  formatFileBase64 : option string;
  formatFileMimeType : option string;
  formatFileName : option string;
  formatFilePreview : option string;
  analysisResult : option AnalysisResult;
  inputsChanged : bool;
  fixedText : string;
  isLoading : bool;
  isExtractingRules : bool
}.

Definition setCurrentStep (value : AppStep) (st : AppState) : AppState :=
  {| currentStep := value;
     thesisText := thesisText st;
     thesisHtml := thesisHtml st;
     thesisStyleAnalysis := thesisStyleAnalysis st;
     thesisFile := thesisFile st;
     viewMode := viewMode st;
     formatRequirements := formatRequirements st;
     formatFileBase64 := formatFileBase64 st;
     formatFileMimeType := formatFileMimeType st;
     formatFileName := formatFileName st;
     formatFilePreview := formatFilePreview st;
     analysisResult := analysisResult st;
     inputsChanged := inputsChanged st;
     fixedText := fixedText st;
     isLoading := isLoading st;
     isExtractingRules := isExtractingRules st |}.

Definition setThesisText (value : string) (st : AppState) : AppState :=
  {| currentStep := currentStep st;
     thesisText := value;
     thesisHtml := thesisHtml st;
     thesisStyleAnalysis := thesisStyleAnalysis st;
     thesisFile := thesisFile st;
     viewMode := viewMode st;
     formatRequirements := formatRequirements st;
     formatFileBase64 := formatFileBase64 st;
     formatFileMimeType := formatFileMimeType st;
     formatFileName := formatFileName st;
     formatFilePreview := formatFilePreview st;
     analysisResult := analysisResult st;
     inputsChanged := inputsChanged st;
     fixedText := fixedText st;
     isLoading := isLoading st;
     isExtractingRules := isExtractingRules st |}.

Definition setThesisHtml (value : string) (st : AppState) : AppState :=
  {| currentStep := currentStep st;
     thesisText := thesisText st;
     thesisHtml := value;
     thesisStyleAnalysis := thesisStyleAnalysis st;
     thesisFile := thesisFile st;
     viewMode := viewMode st;
     formatRequirements := formatRequirements st;
     formatFileBase64 := formatFileBase64 st;
     formatFileMimeType := formatFileMimeType st;
     formatFileName := formatFileName st;
     formatFilePreview := formatFilePreview st;
     analysisResult := analysisResult st;
     inputsChanged := inputsChanged st;
     fixedText := fixedText st;
     isLoading := isLoading st;
     isExtractingRules := isExtractingRules st |}.

Definition setThesisStyleAnalysis (value : string) (st : AppState) : AppState :=
  {| currentStep := currentStep st;
     thesisText := thesisText st;
     thesisHtml := thesisHtml st;
     thesisStyleAnalysis := value;
     thesisFile := thesisFile st;
     viewMode := viewMode st;
     formatRequirements := formatRequirements st;
     formatFileBase64 := formatFileBase64 st;
     formatFileMimeType := formatFileMimeType st;
     formatFileName := formatFileName st;
     formatFilePreview := formatFilePreview st;
     analysisResult := analysisResult st;
     inputsChanged := inputsChanged st;
     fixedText := fixedText st;
     isLoading := isLoading st;
     isExtractingRules := isExtractingRules st |}.

Definition setThesisFile (value : option File) (st : AppState) : AppState :=
  {| currentStep := currentStep st;
     thesisText := thesisText st;
     thesisHtml := thesisHtml st;
     thesisStyleAnalysis := thesisStyleAnalysis st;
     thesisFile := value;
     viewMode := viewMode st;
     formatRequirements := formatRequirements st;
     formatFileBase64 := formatFileBase64 st;
     formatFileMimeType := formatFileMimeType st;
     formatFileName := formatFileName st;
     formatFilePreview := formatFilePreview st;
     analysisResult := analysisResult st;
     inputsChanged := inputsChanged st;
     fixedText := fixedText st;
     isLoading := isLoading st;
     isExtractingRules := isExtractingRules st |}.

Definition setViewMode (value : ViewMode) (st : AppState) : AppState :=
  {| currentStep := currentStep st;
     thesisText := thesisText st;
     thesisHtml := thesisHtml st;
     thesisStyleAnalysis := thesisStyleAnalysis st;
     thesisFile := thesisFile st;
     viewMode := value;
     formatRequirements := formatRequirements st;
     formatFileBase64 := formatFileBase64 st;
     formatFileMimeType := formatFileMimeType st;
     formatFileName := formatFileName st;
     formatFilePreview := formatFilePreview st;
     analysisResult := analysisResult st;
     inputsChanged := inputsChanged st;
     fixedText := fixedText st;
     isLoading := isLoading st;
     isExtractingRules := isExtractingRules st |}.

Definition setFormatRequirements (value : string) (st : AppState) : AppState :=
  {| currentStep := currentStep st;
     thesisText := thesisText st;
     thesisHtml := thesisHtml st;
     thesisStyleAnalysis := thesisStyleAnalysis st;
     thesisFile := thesisFile st;
     viewMode := viewMode st;
     formatRequirements := value;
     formatFileBase64 := formatFileBase64 st;
     formatFileMimeType := formatFileMimeType st;
     formatFileName := formatFileName st;
     formatFilePreview := formatFilePreview st;
     analysisResult := analysisResult st;
     inputsChanged := inputsChanged st;
     fixedText := fixedText st;
     isLoading := isLoading st;
     isExtractingRules := isExtractingRules st |}.

Definition setFormatFileBase64 (value : option string) (st : AppState) : AppState :=
  {| currentStep := currentStep st;
     thesisText := thesisText st;
     thesisHtml := thesisHtml st;
     thesisStyleAnalysis := thesisStyleAnalysis st;
     thesisFile := thesisFile st;
     viewMode := viewMode st;
     formatRequirements := formatRequirements st;
     formatFileBase64 := value;
     formatFileMimeType := formatFileMimeType st;
     formatFileName := formatFileName st;
     formatFilePreview := formatFilePreview st;
     analysisResult := analysisResult st;
     inputsChanged := inputsChanged st;
     fixedText := fixedText st;
     isLoading := isLoading st;
     isExtractingRules := isExtractingRules st |}.

Definition setFormatFileMimeType (value : option string) (st : AppState) : AppState :=
  {| currentStep := currentStep st;
     thesisText := thesisText st;
     thesisHtml := thesisHtml st;
     thesisStyleAnalysis := thesisStyleAnalysis st;
     thesisFile := thesisFile st;
     viewMode := viewMode st;
     formatRequirements := formatRequirements st;
     formatFileBase64 := formatFileBase64 st;
     formatFileMimeType := value;
     formatFileName := formatFileName st;
     formatFilePreview := formatFilePreview st;
     analysisResult := analysisResult st;
     inputsChanged := inputsChanged st;
     fixedText := fixedText st;
     isLoading := isLoading st;
     isExtractingRules := isExtractingRules st |}.

Definition setFormatFileName (value : option string) (st : AppState) : AppState :=
  {| currentStep := currentStep st;
     thesisText := thesisText st;
     thesisHtml := thesisHtml st;
     thesisStyleAnalysis := thesisStyleAnalysis st;
     thesisFile := thesisFile st;
     viewMode := viewMode st;
     formatRequirements := formatRequirements st;
     formatFileBase64 := formatFileBase64 st;
     formatFileMimeType := formatFileMimeType st;
     formatFileName := value;
     formatFilePreview := formatFilePreview st;
     analysisResult := analysisResult st;
     inputsChanged := inputsChanged st;
     fixedText := fixedText st;
     isLoading := isLoading st;
     isExtractingRules := isExtractingRules st |}.

Definition setFormatFilePreview (value : option string) (st : AppState) : AppState :=
  {| currentStep := currentStep st;
     thesisText := thesisText st;
     thesisHtml := thesisHtml st;
     thesisStyleAnalysis := thesisStyleAnalysis st;
     thesisFile := thesisFile st;
     viewMode := viewMode st;
     formatRequirements := formatRequirements st;
     formatFileBase64 := formatFileBase64 st;
     formatFileMimeType := formatFileMimeType st;
     formatFileName := formatFileName st;
     formatFilePreview := value;
     analysisResult := analysisResult st;
     inputsChanged := inputsChanged st;
     fixedText := fixedText st;
     isLoading := isLoading st;
     isExtractingRules := isExtractingRules st |}.

Definition setAnalysisResult (value : option AnalysisResult) (st : AppState) : AppState :=
  {| currentStep := currentStep st;
     thesisText := thesisText st;
     thesisHtml := thesisHtml st;
     thesisStyleAnalysis := thesisStyleAnalysis st;
     thesisFile := thesisFile st;
     viewMode := viewMode st;
     formatRequirements := formatRequirements st;
     formatFileBase64 := formatFileBase64 st;
     formatFileMimeType := formatFileMimeType st;
     formatFileName := formatFileName st;
     formatFilePreview := formatFilePreview st;
     analysisResult := value;
     inputsChanged := inputsChanged st;
     fixedText := fixedText st;
     isLoading := isLoading st;
     isExtractingRules := isExtractingRules st |}.

Definition setInputsChanged (value : bool) (st : AppState) : AppState :=
  {| currentStep := currentStep st;
     thesisText := thesisText st;
     thesisHtml := thesisHtml st;
     thesisStyleAnalysis := thesisStyleAnalysis st;
     thesisFile := thesisFile st;
     viewMode := viewMode st;
     formatRequirements := formatRequirements st;
     formatFileBase64 := formatFileBase64 st;
     formatFileMimeType := formatFileMimeType st;
     formatFileName := formatFileName st;
     formatFilePreview := formatFilePreview st;
     analysisResult := analysisResult st;
     inputsChanged := value;
     fixedText := fixedText st;
     isLoading := isLoading st;
     isExtractingRules := isExtractingRules st |}.

Definition setFixedText (value : string) (st : AppState) : AppState :=
  {| currentStep := currentStep st;
     thesisText := thesisText st;
     thesisHtml := thesisHtml st;
     thesisStyleAnalysis := thesisStyleAnalysis st;
     thesisFile := thesisFile st;
     viewMode := viewMode st;
     formatRequirements := formatRequirements st;
     formatFileBase64 := formatFileBase64 st;
     formatFileMimeType := formatFileMimeType st;
     formatFileName := formatFileName st;
     formatFilePreview := formatFilePreview st;
     analysisResult := analysisResult st;
     inputsChanged := inputsChanged st;
     fixedText := value;
     isLoading := isLoading st;
     isExtractingRules := isExtractingRules st |}.

Definition setIsLoading (value : bool) (st : AppState) : AppState :=
  {| currentStep := currentStep st;
     thesisText := thesisText st;
     thesisHtml := thesisHtml st;
     thesisStyleAnalysis := thesisStyleAnalysis st;
     thesisFile := thesisFile st;
     viewMode := viewMode st;
     formatRequirements := formatRequirements st;
     formatFileBase64 := formatFileBase64 st;
     formatFileMimeType := formatFileMimeType st;
     formatFileName := formatFileName st;
     formatFilePreview := formatFilePreview st;
     analysisResult := analysisResult st;
     inputsChanged := inputsChanged st;
     fixedText := fixedText st;
     isLoading := value;
     isExtractingRules := isExtractingRules st |}.

Definition setIsExtractingRules (value : bool) (st : AppState) : AppState :=
  {| currentStep := currentStep st;
     thesisText := thesisText st;
     thesisHtml := thesisHtml st;
     thesisStyleAnalysis := thesisStyleAnalysis st;
     thesisFile := thesisFile st;
     viewMode := viewMode st;
     formatRequirements := formatRequirements st;
     formatFileBase64 := formatFileBase64 st;
     formatFileMimeType := formatFileMimeType st;
     formatFileName := formatFileName st;
     formatFilePreview := formatFilePreview st;
     analysisResult := analysisResult st;
     inputsChanged := inputsChanged st;
     fixedText := fixedText st;
     isLoading := isLoading st;
     isExtractingRules := value |}.

Definition initialState : AppState :=
  {| currentStep := UPLOAD;
     thesisText := EmptyString;
     thesisHtml := EmptyString;
     thesisStyleAnalysis := EmptyString;
     thesisFile := None;
     viewMode := edit;
     formatRequirements := EmptyString;
     formatFileBase64 := None;
     formatFileMimeType := None;
     formatFileName := None;
     formatFilePreview := None;
     analysisResult := None;
     inputsChanged := false;
     fixedText := EmptyString;
     isLoading := false;
     isExtractingRules := false |}.

(** *** The service calls (services/geminiService.ts) *)

(** [getClient()]: throws when there is no API key. *)
Definition getClient : Settled unit :=
  if falsy API_KEY
  then Rejected (plainError "API Key not found in environment")
  else Fulfilled tt.

(** The result that [analyzeText] returns when the call or the reading of
    the response failed. *)
Definition fallbackResult (error : Reason) : AnalysisResult :=
  let errorMessage :=
    if isSyntaxError error && includes (errorMessage error) "JSON"
    then "AI 返回的数据格式不完整（可能是由于内容过长被截断），请尝试减少一次分析的文本量。"
    else "AI 服务暂时不可用" in
  {| score := zero;
     summary := "无法完成分析。请确保上传的文件内容清晰。";
     issues :=
       [ JObject [ ("id", JString "error-1");
                   ("type", JString "OTHER");
                   ("severity", JString "CRITICAL");
                   ("description", JString errorMessage);
                   ("originalText", JString "N/A");
                   ("suggestion", JString "请重试或检查网络连接。") ] ] |}.

(** The [catch] clause of [analyzeText]: an abort is thrown again, every
    other exception becomes the fallback result. *)
Definition analysisCatch (error : Reason) : Settled AnalysisResult :=
  if abortLike error then Rejected error
  else Fulfilled (fallbackResult error).

(** Source lines 162 to 167: the text of the response, or [{}] when there
    is none, without markdown fences. *)
Definition responseJsonText (responseText : option string) : string :=
  let text := orElse responseText "{}" in
  if includes text "```"
  then trim (removeAll "```" (removeAll "```json" text))
  else text.

(** Source lines 162 to 179: the text of the response parsed and made
    into a result. *)
Definition readResult (responseText : option string)
  : Settled AnalysisResult :=
  let text := responseJsonText responseText in
  match JSON_parse text with
  | Rejected error => Rejected error
  | Fulfilled parsed =>
      match getProp nullPropertyError parsed "score" with
      | Rejected error => Rejected error
      | Fulfilled parsedScore =>
          match getProp nullPropertyError parsed "summary" with
          | Rejected error => Rejected error
          | Fulfilled parsedSummary =>
              match getProp nullPropertyError parsed "issues" with
              | Rejected error => Rejected error
              | Fulfilled parsedIssues =>
                  Fulfilled
                    {| score :=
                         match parsedScore with
                         | Some (JNumber n) => n
                         | _ => zero
                         end;
                       summary :=
                         match parsedSummary with
                         | Some (JString text) => text
                         | _ => "分析完成，但未生成总结。"
                         end;
                       issues :=
                         match parsedIssues with
                         | Some (JArray items) => items
                         | _ => []
                         end |}
              end
          end
      end
  end.

(** How far [analyzeText] gets before it awaits the service. *)
Inductive Started : Type :=
| Finished (result : Settled AnalysisResult)
| Calling (parts : list Part).

(** [analyzeText] up to the call of the service (source lines 62 to 147).
    [aborted] is [signal?.aborted] at that time. *)
Definition analyzeText_begin (content formatRequirements : string)
           (docxStyleAnalysis formatFileBase64 formatFileMimeType
            : option string)
           (isHtml aborted : bool) : Started :=
  if aborted then Finished (Rejected abortError)
  else
    match getClient with
    | Rejected error => Finished (Rejected error)
    | Fulfilled _ =>
        let parts :=
          analysisParts js_substring content formatRequirements
                        docxStyleAnalysis formatFileBase64
                        formatFileMimeType isHtml in
        if aborted then Finished (analysisCatch abortError)
        else Calling parts
    end.

(** [analyzeText] from the moment the service settles (source lines 160
    to 206).  [outcome] is the text of the response, or the exception of
    the call; [aborted] is [signal?.aborted] at that time. *)
Definition analyzeText_end (aborted : bool) (outcome : Settled (option string))
  : Settled AnalysisResult :=
  match outcome with
  | Rejected error => analysisCatch error
  | Fulfilled responseText =>
      if aborted then analysisCatch abortError
      else
        match readResult responseText with
        | Rejected error => analysisCatch error
        | Fulfilled result => Fulfilled result
        end
  end.





(** [fixText] from the moment the service settles: the text of the
    response when there is one, the original text otherwise. *)
Definition fixText_end (text : string) (outcome : Settled (option string))
  : string :=
  match outcome with
  | Fulfilled responseText => orElse responseText text
  | Rejected _ => text
  end.

(** *** The handlers of the component *)

(** [value] of an object-or-null used as a condition. *)
Definition given {A : Type} (value : option A) : bool :=
  match value with Some _ => true | None => false end.

(** [value || undefined] for a string or null. *)
Definition orUndefined (value : option string) : option string :=
  if falsy value then None else value.

Definition handleStepClick (st : AppState) (step : AppStep) : AppState :=
  if isLoading st then st
  else if AppStep_eqb step UPLOAD then setCurrentStep UPLOAD st
  else if AppStep_eqb step REPORT && given (analysisResult st)
       then setCurrentStep REPORT st
  else st.

Definition clearFormatFile (st : AppState) : AppState :=
  let st := setFormatFileBase64 None st in
  let st := setFormatFileMimeType None st in
  let st := setFormatFileName None st in
  let st := setFormatFilePreview None st in
  setInputsChanged true st.

Definition resetApp (st : AppState) : AppState :=
  let st := setCurrentStep UPLOAD st in
  let st := setAnalysisResult None st in
  let st := setInputsChanged false st in
  let st := setFixedText EmptyString st in
  let st := setThesisText EmptyString st in
  let st := setThesisHtml EmptyString st in
  let st := setThesisStyleAnalysis EmptyString st in
  let st := setThesisFile None st in
  let st := setViewMode edit st in
  let st := setFormatRequirements EmptyString st in
  clearFormatFile st.




(** The test by which the upload handler takes a file for a Word
    document. *)
Definition isDocx (file : File) : bool :=
  endsWith (File_name file) ".docx"
  || String.eqb (File_type file) docxMimeType.

(** [handleThesisFileUpload], run to its end: the state it leaves and the
    alerts it shows.  [file] is [e.target.files?.[0]]. *)
Definition handleThesisFileUpload (st : AppState) (file : option File)
  : AppState * list string :=
  match file with
  | None => (st, [])
  | Some file =>
      let st := setThesisFile (Some file) st in
      let st := setInputsChanged true st in
      if endsWith (File_name file) ".docx"
         || String.eqb (File_type file) docxMimeType
      then
        match File_arrayBuffer file with
        | Rejected _ => (st, [alertUnreadableDocx])
        | Fulfilled arrayBuffer =>
            match convertToHtml arrayBuffer with
            | Rejected _ => (st, [alertUnreadableDocx])
            | Fulfilled htmlResult =>
                let st := setThesisHtml htmlResult st in
                match extractRawText arrayBuffer with
                | Rejected _ => (st, [alertUnreadableDocx])
                | Fulfilled rawResult =>
                    let st := setThesisText rawResult st in
                    match parseDocxStyles file with
                    | Throw _ => (st, [alertUnreadableDocx])
                    | Return styleReport =>
                        let st := setThesisStyleAnalysis styleReport st in
                        (setViewMode preview st, [])
                    end
                end
            end
        end
      else
        match readAsText file with
        | Some content =>
            let st := setThesisText content st in
            let st := setThesisHtml EmptyString st in
            let st := setThesisStyleAnalysis EmptyString st in
            (setViewMode edit st, [])
        | None => (st, [])
        end
  end.

(** The [disabled] property of the analyse button. *)
Definition analyzeDisabled (st : AppState) : bool :=
  (blank (trim (thesisText st)) && blank (thesisHtml st))
  || (blank (trim (formatRequirements st)) && falsy (formatFileBase64 st)).

(** The component with what its reference [abortControllerRef] holds.
    A controller is known by its number; [controllers] has the [aborted]
    flag of every controller made so far. *)
Record World : Type := {
  app : AppState;
  abortControllerRef : option nat;
  controllers : list bool
}.

Definition withApp (w : World) (st : AppState) : World :=
  {| app := st; abortControllerRef := abortControllerRef w;
     controllers := controllers w |}.

(** [controller.signal.aborted]. *)
Definition signalAborted (w : World) (controller : nat) : bool :=
  match controllers w !! controller with
  | Some aborted => aborted
  | None => false
  end.

(** An analysis that waits for the service. *)
Record Pending : Type := {
  controller : nat;
  request : list Part
}.

(** [handleAnalyze] from the moment [analyzeText] has settled with
    [result]: the [try] block after the [await], the [catch] clause and
    the [finally] clause (source lines 155 to 172). *)
Definition analyzeSettled (w : World) (controller : nat)
           (result : Settled AnalysisResult) : World * list string :=
  let st := app w in
  let '(st, alerts) :=
    match result with
    | Fulfilled result =>
        let st := setAnalysisResult (Some result) st in
        let st := setInputsChanged false st in
        (setCurrentStep REPORT st, [])
    | Rejected error =>
        if abortLike error then (st, [])
        else (setCurrentStep UPLOAD st, [alertAnalysisFailed])
    end in
  if bool_decide (abortControllerRef w = Some controller)
  then ({| app := setIsLoading false st; abortControllerRef := None;
           controllers := controllers w |}, alerts)
  else (withApp w st, alerts).

(** [handleAnalyze] up to its [await] (source lines 109 to 153): the
    world it leaves, the alerts it shows and, when the service was called,
    the analysis that now waits. *)
Definition handleAnalyze_begin (w : World)
  : World * list string * option Pending :=
  let st := app w in
  if given (analysisResult st) && negb (inputsChanged st)
  then (withApp w (setCurrentStep REPORT st), [], None)
  else if blank (trim (thesisText st)) then (w, [alertNoThesis], None)
  else if blank (trim (formatRequirements st))
          && falsy (formatFileBase64 st)
       then (w, [alertNoRequirements], None)
  else
    let controller := length (controllers w) in
    let st := setCurrentStep ANALYZING st in
    let st := setIsLoading true st in
    let w := {| app := st; abortControllerRef := Some controller;
                controllers := controllers w ++ [false] |} in
    let isHtml :=
      negb (blank (thesisHtml st))
      && (0 <? String.length (thesisHtml st))%nat in
    let contentToAnalyze :=
      if isHtml then thesisHtml st else thesisText st in
    match analyzeText_begin contentToAnalyze (formatRequirements st)
                            (Some (thesisStyleAnalysis st))
                            (orUndefined (formatFileBase64 st))
                            (orUndefined (formatFileMimeType st))
                            isHtml (signalAborted w controller) with
    | Calling parts =>
        (w, [], Some {| controller := controller; request := parts |})
    | Finished result =>
        let '(w, alerts) := analyzeSettled w controller result in
        (w, alerts, None)
    end.

(** [handleAnalyze] from the moment the service settles, in the world of
    that moment. *)
Definition handleAnalyze_end (w : World) (pending : Pending)
           (outcome : Settled (option string)) : World * list string :=
  analyzeSettled w (controller pending)
    (analyzeText_end (signalAborted w (controller pending)) outcome).

Definition handleCancelAnalysis (w : World) : World :=
  let w :=
    match abortControllerRef w with
    | Some controller =>
        {| app := app w; abortControllerRef := None;
           controllers := <[controller := true]> (controllers w) |}
    | None => w
    end in
  withApp w (setCurrentStep UPLOAD (setIsLoading false (app w))).








(** The [disabled] property of the repair button of the report. *)
Definition fixDisabled (result : AnalysisResult) : bool :=
  (length (issues result) =? 0)%nat.


(** [handleFix] from the moment [fixText] has returned [fixed] (source
    lines 202 to 212). *)
Definition handleFix_end (st : AppState) (text : string)
           (outcome : Settled (option string)) : AppState :=
  let fixed := fixText_end text outcome in
  let plainFixed := stripTags fixed in
  let st := setFixedText plainFixed st in
  let st := setCurrentStep RESULT st in
  setIsLoading false st.

End Application.

End App.

(** ** A stage for the application: test services *)

Module Stage.

Import Sample App.

(** Services over the test platform.  An archive is a file named
    [thesis.docx] that the document library can read; anything else is a
    text file named [notes.txt].  Numbers are integers; the JSON parser
    knows the empty object and [null]. *)
Definition syntaxError : Reason :=
  {| errorName := "SyntaxError";
     errorMessage := "Unexpected end of JSON input";
     isSyntaxError := true |}.

Definition typeError : Reason :=
  {| errorName := "TypeError";
     errorMessage := "Cannot read properties of null (reading 'score')";
     isSyntaxError := false |}.

Definition networkError : Reason :=
  {| errorName := "TypeError"; errorMessage := "Failed to fetch";
     isSyntaxError := false |}.

Definition testServices : @Services testPlatform :=
  {| number := Z;
     zero := 0%Z;
     number_toString := pretty;
     js_substring := fun s first last =>
       String.substring (N.to_nat first) (N.to_nat (last - first)) s;
     File_name := fun file : @File testPlatform =>
       match file with
       | Archive _ => "thesis.docx"
       | NotAnArchive => "notes.txt"
       end;
     File_type := fun file : @File testPlatform =>
       match file with
       | Archive _ => docxMimeType
       | NotAnArchive => "text/plain"
       end;
     ArrayBuffer := Upload;
     File_arrayBuffer := fun file : @File testPlatform => Fulfilled file;
     convertToHtml := fun buffer =>
       match buffer with
       | Archive _ => Fulfilled "<h1>1. Introduction</h1><p>Text.</p>"
       | NotAnArchive =>
           Rejected (plainError "Can't find end of central directory")
       end;
     extractRawText := fun buffer =>
       match buffer with
       | Archive _ => Fulfilled "1. Introduction Text."
       | NotAnArchive =>
           Rejected (plainError "Can't find end of central directory")
       end;
     readAsText := fun file =>
       match file with
       | Archive _ => None
       | NotAnArchive => Some "1. Introduction"
       end;
     API_KEY := Some "key";
     JSON_parse := fun text =>
       if String.eqb text "{}" then Fulfilled (JObject [])
       else if String.eqb text "null" then Fulfilled JNull
       else Rejected syntaxError;
     nullPropertyError := typeError |}.

(** A file with a Word name that is no archive. *)
Definition brokenServices : @Services testPlatform :=
  {| number := Z;
     zero := 0%Z;
     number_toString := pretty;
     js_substring := @js_substring _ testServices;
     File_name := fun _ => "broken.docx";
     File_type := fun _ => EmptyString;
     ArrayBuffer := Upload;
     File_arrayBuffer := fun file : @File testPlatform => Fulfilled file;
     convertToHtml := @convertToHtml _ testServices;
     extractRawText := @extractRawText _ testServices;
     readAsText := fun _ => None;
     API_KEY := None;
     JSON_parse := @JSON_parse _ testServices;
     nullPropertyError := typeError |}.

Definition sampleResult : @AnalysisResult testPlatform testServices :=
  @Build_AnalysisResult testPlatform testServices 80%Z "ok" [].

(** The state after an earlier analysis: at the report, nothing loading. *)
Definition reported : @AppState testPlatform testServices :=
  {| currentStep := REPORT;
     thesisText := "1. Introduction";
     thesisHtml := EmptyString;
     thesisStyleAnalysis := EmptyString;
     thesisFile := None;
     viewMode := edit;
     formatRequirements := "Line spacing 1.5";
     formatFileBase64 := None;
     formatFileMimeType := None;
     formatFileName := None;
     formatFilePreview := None;
     analysisResult := Some sampleResult;
     inputsChanged := false;
     fixedText := EmptyString;
     isLoading := false;
     isExtractingRules := false |}.

(** The state with a thesis and requirements typed in, not yet analysed. *)
Definition typed : @AppState testPlatform testServices :=
  {| currentStep := UPLOAD;
     thesisText := "1. Introduction";
     thesisHtml := EmptyString;
     thesisStyleAnalysis := EmptyString;
     thesisFile := None;
     viewMode := edit;
     formatRequirements := "Line spacing 1.5";
     formatFileBase64 := None;
     formatFileMimeType := None;
     formatFileName := None;
     formatFilePreview := None;
     analysisResult := None;
     inputsChanged := true;
     fixedText := EmptyString;
     isLoading := false;
     isExtractingRules := false |}.

Definition typedWorld : @World testPlatform testServices :=
  {| app := typed; abortControllerRef := None; controllers := [] |}.

End Stage.

(** * Properties *)

(** ** Strings *)

Section StringFacts.

Implicit Types s t u : string.

Lemma app_nil_l s : EmptyString +:+ s = s.
Proof. reflexivity. Qed.

Lemma app_cons c s t : String c s +:+ t = String c (s +:+ t).
Proof. reflexivity. Qed.

Lemma app_nil_r s : s +:+ EmptyString = s.
Proof.
  induction s as [|c s IH]; [reflexivity|].
  now rewrite app_cons, IH.
Qed.

Lemma app_assoc s t u : (s +:+ t) +:+ u = s +:+ t +:+ u.
Proof.
  induction s as [|c s IH]; [reflexivity|].
  now rewrite !app_cons, IH.
Qed.

Lemma app_length s t :
  String.length (s +:+ t) = (String.length s + String.length t)%nat.
Proof.
  induction s as [|c s IH]; [reflexivity|].
  rewrite app_cons. simpl. now rewrite IH.
Qed.

Lemma prefix_app t s :
  String.prefix t s = true <-> exists post, s = t +:+ post.
Proof.
  revert s. induction t as [|a t IH]; intros s.
  - split; [intros _; now exists s | intros _; now destruct s].
  - destruct s as [|c s]; simpl.
    + split; [discriminate | intros [post H]; discriminate].
    + destruct (ascii_dec a c) as [->|Hne].
      * rewrite IH. split; intros [post H]; exists post.
        -- now rewrite app_cons, H.
        -- rewrite app_cons in H. now injection H.
      * split; [discriminate|].
        intros [post H]. rewrite app_cons in H. congruence.
Qed.

Lemma includes_nil t :
  includes EmptyString t = String.prefix t EmptyString || false.
Proof. reflexivity. Qed.

Lemma includes_cons c s t :
  includes (String c s) t = String.prefix t (String c s) || includes s t.
Proof. reflexivity. Qed.

Lemma includes_occurs s t : includes s t = true <-> occurs t s.
Proof.
  unfold occurs. induction s as [|c s IH].
  - rewrite includes_nil, orb_false_r, prefix_app. split.
    + intros [post H]. now exists EmptyString, post.
    + intros [[|a pre] [post H]]; [now exists post|discriminate].
  - rewrite includes_cons, orb_true_iff, prefix_app, IH. split.
    + intros [[post H]|(pre & post & H)].
      * now exists EmptyString, post.
      * exists (String c pre), post. now rewrite app_cons, H.
    + intros ([|a pre] & post & H).
      * left. now exists post.
      * right. rewrite app_cons in H. injection H as _ H.
        now exists pre, post.
Qed.

Lemma includes_app_r s t u : includes s u = true -> includes (t +:+ s) u = true.
Proof.
  rewrite !includes_occurs. intros (pre & post & ->).
  exists (t +:+ pre), post. now rewrite app_assoc.
Qed.

Lemma includes_app_l s t u : includes s u = true -> includes (s +:+ t) u = true.
Proof.
  rewrite !includes_occurs. intros (pre & post & ->).
  exists pre, (post +:+ t). now rewrite !app_assoc.
Qed.

Lemma includes_self_app s t : includes (s +:+ t) s = true.
Proof. apply includes_occurs. now exists EmptyString, t. Qed.

Lemma toLowerCase_app s t :
  toLowerCase (s +:+ t) = toLowerCase s +:+ toLowerCase t.
Proof.
  induction s as [|c s IH]; [reflexivity|].
  rewrite app_cons. simpl. now rewrite IH, app_cons.
Qed.

Lemma toLowerCase_split s : forall t u,
  toLowerCase s = t +:+ u ->
  exists s1 s2, s = s1 +:+ s2 /\ toLowerCase s1 = t /\ toLowerCase s2 = u.
Proof.
  induction s as [|c s IH]; intros [|a t] u H.
  - rewrite app_nil_l in H. now exists EmptyString, EmptyString.
  - discriminate.
  - rewrite app_nil_l in H. now exists EmptyString, (String c s).
  - simpl in H. rewrite app_cons in H. injection H as Hc H.
    destruct (IH _ _ H) as (s1 & s2 & -> & <- & <-).
    exists (String c s1), s2. simpl. now rewrite Hc.
Qed.

(** The program's test [s.toLowerCase().includes(needle)] is the
    case-insensitive containment of the specification. *)
Lemma includes_toLowerCase needle s :
  includes (toLowerCase s) needle = true <-> ci_contains needle s.
Proof.
  rewrite includes_occurs. unfold occurs, ci_contains. split.
  - intros (pre & post & H).
    destruct (toLowerCase_split _ _ _ H) as (s1 & s' & -> & <- & H').
    destruct (toLowerCase_split _ _ _ H') as (s2 & s3 & -> & <- & <-).
    now exists s1, s2, s3.
  - intros (pre & mid & post & -> & <-).
    exists (toLowerCase pre), (toLowerCase post).
    now rewrite !toLowerCase_app.
Qed.

End StringFacts.

(** ** One style: the loop body appends the block of the style *)

Section Blocks.

Ltac normalize_app := rewrite ?app_assoc, ?app_nil_r, ?app_nil_l.

(** The loop body only appends, and what it appends is the block the
    layout prescribes. *)
Lemma processStyle_block report style :
  processStyle report style = report +:+ styleBlock style.
Proof.
  unfold processStyle, styleBlock, included, headerLine, runLines,
    paragraphLines, fontLine, sizeLine, sizeLineOf, boldLine, boldOf,
    spacingLine, spacingLineOf, jcLine, jcLineOf, displayName.
  destruct (getAttribute style "w:styleId") as [id|];
    cbn [option_map truthy]; rewrite ?orb_assoc, ?orb_false_l.
  all: match goal with
       | |- (if ?c then _ else _) = _ => destruct c
       end; [|now rewrite app_nil_r ..].
  all: destruct (item0 (getElementsByTagName style "w:rPr")) as [rPr|];
    [ destruct (item0 (getElementsByTagName rPr "w:rFonts")) as [rFonts|];
      destruct (item0 (getElementsByTagName rPr "w:sz")) as [sz|];
      (destruct (item0 (getElementsByTagName rPr "w:b")) as [b|];
       [destruct (strictEq (getAttribute b "w:val") "0")|])
    | ].
  all: cbn [negb].
  all: destruct (item0 (getElementsByTagName style "w:pPr")) as [pPr|];
    [ destruct (item0 (getElementsByTagName pPr "w:spacing")) as [spacing|];
      destruct (item0 (getElementsByTagName pPr "w:jc")) as [jc|]
    | ].
  all: normalize_app; reflexivity.
Qed.

End Blocks.

(** ** The loop: blocks in the order of the collection *)

Section Loop.

Lemma blocks_nil : blocks [] = EmptyString.
Proof. reflexivity. Qed.

Lemma blocks_cons style styles :
  blocks (style :: styles) = styleBlock style +:+ blocks styles.
Proof. reflexivity. Qed.

Lemma blocks_app l1 l2 : blocks (l1 ++ l2) = blocks l1 +:+ blocks l2.
Proof.
  induction l1 as [|style l1 IH]; [reflexivity|].
  now rewrite <- app_comm_cons, !blocks_cons, IH, app_assoc.
Qed.

(** Styles the filter rejects leave no trace in the text. *)
Lemma blocks_filter styles :
  blocks styles = blocks (List.filter included styles).
Proof.
  induction styles as [|style styles IH]; [reflexivity|].
  rewrite blocks_cons. simpl. unfold styleBlock at 1.
  destruct (included style) eqn:E.
  - rewrite blocks_cons. unfold styleBlock at 1. now rewrite E, IH.
  - now rewrite app_nil_l.
Qed.

(** With fuel for the remaining elements the loop runs to the end of the
    collection and appends the blocks of the elements from [i] on. *)
Lemma forLoop_blocks fuel : forall styles i report,
  (length styles <= fuel + i)%nat ->
  forLoop fuel styles i report = report +:+ blocks (drop i styles).
Proof.
  induction fuel as [|fuel IH]; intros styles i report Hfuel; simpl.
  - rewrite drop_ge by lia. now rewrite blocks_nil, app_nil_r.
  - destruct (Nat.ltb_spec i (length styles)) as [Hlt|Hge].
    + destruct (lookup_lt_is_Some_2 styles i Hlt) as [style Hstyle].
      rewrite Hstyle, (drop_S _ _ _ Hstyle), blocks_cons.
      rewrite IH by lia.
      now rewrite processStyle_block, app_assoc.
    + rewrite drop_ge by lia. now rewrite blocks_nil, app_nil_r.
Qed.

(** The loop as the program runs it: from index 0, with the length of the
    collection as bound. *)
Lemma forLoop_all styles report :
  forLoop (length styles) styles 0 report = report +:+ blocks styles.
Proof. rewrite forLoop_blocks by lia. now rewrite drop_0. Qed.

End Loop.

(** ** The relevance filter *)

Section Filter.

Lemma strictEq_true v s : strictEq v s = true <-> v = Some s.
Proof.
  destruct v as [t|]; simpl; [|split; discriminate].
  rewrite String.eqb_eq. split; congruence.
Qed.

(** The boolean filter decides the filter of the specification. *)
Lemma included_relevant style : included style = true <-> relevant style.
Proof.
  unfold included, relevant.
  destruct (getAttribute style "w:styleId") as [id|].
  - rewrite !orb_true_iff, !includes_toLowerCase, strictEq_true. split.
    + intros [[H|H]|H]; [left|right; left|right; right]; eauto.
    + intros [(id' & [= <-] & H)|[(id' & [= <-] & H)|H]]; auto.
  - rewrite orb_false_l, strictEq_true. split; [auto|].
    intros [(id' & [=] & _)|[(id' & [=] & _)|H]]; auto.
Qed.

Lemma not_included_block style :
  included style = false -> styleBlock style = EmptyString.
Proof. unfold styleBlock. now intros ->. Qed.

Lemma included_block style :
  included style = true ->
  styleBlock style
  = headerLine style +:+ runLines style +:+ paragraphLines style.
Proof. unfold styleBlock. now intros ->. Qed.

End Filter.

(** ** The whole function *)

Section Outcomes.

Context {platform : Platform}.

Ltac run_try :=
  unfold parseDocxStyles, tryBlock;
  repeat match goal with
         | H : _ = _ |- _ => rewrite H; clear H; cbn [bind]
         end.

Lemma parseDocxStyles_not_archive file e :
  loadAsync file = Throw e ->
  parseDocxStyles file = Return parseFailureMessage.
Proof. intros Hload. now run_try. Qed.

Lemma parseDocxStyles_no_entry file zip :
  loadAsync file = Return zip ->
  JSZip_file zip "word/styles.xml" = None ->
  parseDocxStyles file = Return notFoundMessage.
Proof. intros Hload Hfile. now run_try. Qed.

Lemma parseDocxStyles_unreadable file zip entry e :
  loadAsync file = Return zip ->
  JSZip_file zip "word/styles.xml" = Some entry ->
  async_text entry = Throw e ->
  parseDocxStyles file = Return parseFailureMessage.
Proof. intros Hload Hfile Hread. now run_try. Qed.

Lemma parseDocxStyles_empty file zip entry :
  loadAsync file = Return zip ->
  JSZip_file zip "word/styles.xml" = Some entry ->
  async_text entry = Return EmptyString ->
  parseDocxStyles file = Return notFoundMessage.
Proof. intros Hload Hfile Hread. now run_try. Qed.

(** A styles part with some text always gives a report: the header, then
    the blocks of the style elements of the parsed document. *)
Lemma parseDocxStyles_report file zip entry text :
  loadAsync file = Return zip ->
  JSZip_file zip "word/styles.xml" = Some entry ->
  async_text entry = Return text ->
  text <> EmptyString ->
  parseDocxStyles file
  = Return (reportHeader
            +:+ blocks (Document_getElementsByTagName
                          (parseFromString text) "w:style")).
Proof.
  intros Hload Hfile Hread Htext. run_try.
  destruct text as [|c text]; [congruence|].
  cbn [falsy isEmpty tryCatch]. now rewrite forLoop_all.
Qed.

(** The function always returns: the [catch] clause handles every
    exception of the [try] block. *)
Lemma parseDocxStyles_returns file :
  exists text, parseDocxStyles file = Return text.
Proof.
  unfold parseDocxStyles. destruct (tryBlock file) as [text|e]; simpl; eauto.
Qed.

End Outcomes.

(** ** Per-style properties *)

Section PerStyle.

Implicit Types report : string.
Implicit Types style rPr pPr : Element.

Lemma relevant_block report style :
  relevant style ->
  processStyle report style
  = report +:+ headerLine style +:+ runLines style +:+ paragraphLines style.
Proof.
  intros H. apply included_relevant in H.
  now rewrite processStyle_block, included_block.
Qed.

Lemma irrelevant_block report style :
  ~ relevant style -> processStyle report style = report.
Proof.
  intros H. rewrite processStyle_block, not_included_block.
  - apply app_nil_r.
  - destruct (included style) eqn:E; [|reflexivity].
    now apply included_relevant in E.
Qed.



(** A name element without a value gives no fallback: the display name is
    [null] and the header line shows it as such. *)
Lemma name_without_value style nameNode :
  item0 (getElementsByTagName style "w:name") = Some nameNode ->
  getAttribute nameNode "w:val" = None ->
  headerLine style
  = LF +:+ "[样式名称: null (ID: "
       +:+ tmpl (getAttribute style "w:styleId") +:+ ")]".
Proof.
  intros Hnode Hval. unfold headerLine, displayName.
  now rewrite Hnode, Hval.
Qed.



End PerStyle.

(** ** Reading a decimal numeral *)

Section Numerals.

Local Open Scope N_scope.

Lemma digit_cases d :
  d < 10 ->
  d = 0 \/ d = 1 \/ d = 2 \/ d = 3 \/ d = 4 \/ d = 5 \/ d = 6 \/ d = 7
  \/ d = 8 \/ d = 9.
Proof. lia. Qed.

Lemma digitValue_pretty d :
  d < 10 -> digitValue 10 (pretty_N_char d) = Some (Z.of_N d).
Proof.
  intros H.
  destruct (digit_cases d H)
    as [->|[->|[->|[->|[->|[->|[->|[->|[->| ->]]]]]]]]]; reflexivity.
Qed.

Lemma digits_cons d s acc seen :
  d < 10 ->
  digits 10 (String (pretty_N_char d) s) acc seen
  = digits 10 s (acc * 10 + Z.of_N d)%Z true.
Proof. intros H. simpl. now rewrite digitValue_pretty. Qed.

(** Reading the digits that [pretty] wrote for [x] shifts the accumulator
    by a power of ten and adds [x]. *)
Lemma digits_pretty_N_go x :
  0 < x ->
  exists p : Z, forall s acc seen,
    digits 10 (pretty_N_go x s) acc seen
    = digits 10 s (acc * p + Z.of_N x)%Z true.
Proof.
  induction (N.lt_wf_0 x) as [x _ IH]. intros Hx.
  assert (Hmod : x `mod` 10 < 10) by now apply N.mod_lt.
  assert (Hdiv : x = 10 * (x `div` 10) + x `mod` 10)
    by now apply N.div_mod.
  destruct (N.eq_dec (x `div` 10) 0) as [Hz|Hnz].
  - exists 10%Z. intros s acc seen.
    rewrite pretty_N_go_step, Hz, pretty_N_go_0 by assumption.
    rewrite digits_cons by assumption. do 2 f_equal. lia.
  - destruct (IH (x `div` 10)) as [p Hp]; [apply N.div_lt; lia|lia|].
    exists (p * 10)%Z. intros s acc seen.
    rewrite pretty_N_go_step, Hp by assumption.
    rewrite digits_cons by assumption. f_equal.
    rewrite Hdiv at 3. rewrite N2Z.inj_add, N2Z.inj_mul. simpl Z.of_N. ring.
Qed.

(** The numeral of a positive number starts with a digit from 1 to 9. *)
Lemma pretty_N_go_first x :
  0 < x ->
  forall s, exists d rest,
    1 <= d < 10 /\ pretty_N_go x s = String (pretty_N_char d) rest.
Proof.
  induction (N.lt_wf_0 x) as [x _ IH]. intros Hx s.
  assert (Hmod : x `mod` 10 < 10) by now apply N.mod_lt.
  assert (Hdiv : x = 10 * (x `div` 10) + x `mod` 10)
    by now apply N.div_mod.
  rewrite pretty_N_go_step by assumption.
  destruct (N.eq_dec (x `div` 10) 0) as [Hz|Hnz].
  - rewrite Hz, pretty_N_go_0. exists (x `mod` 10), s. split; [lia|reflexivity].
  - apply IH; [apply N.div_lt; lia|lia].
Qed.

(** On a text that starts with a digit from 1 to 9 there is no white
    space, sign or radix prefix to strip. *)
Lemma parseInt_digit_first d rest :
  1 <= d < 10 ->
  parseInt (String (pretty_N_char d) rest)
  = match digits 10 (String (pretty_N_char d) rest) 0 false with
    | Num mathInt => Num (1 * mathInt)
    | NaN => NaN
    end.
Proof.
  intros [Hlo Hhi].
  destruct (digit_cases d Hhi)
    as [->|[->|[->|[->|[->|[->|[->|[->|[->| ->]]]]]]]]];
    [lia|reflexivity..].
Qed.

(** [parseInt] reads back the decimal numeral of a non-negative integer. *)
Lemma parseInt_pretty (z : Z) : (0 <= z)%Z -> parseInt (pretty z) = Num z.
Proof.
  intros Hz. destruct z as [|x|x]; [reflexivity| |lia].
  change (pretty (Z.pos x)) with (pretty_N_go (N.pos x) EmptyString).
  assert (Hx : 0 < N.pos x) by lia.
  destruct (pretty_N_go_first _ Hx EmptyString) as (d & rest & Hd & Hfirst).
  destruct (digits_pretty_N_go _ Hx) as [p Hp].
  rewrite Hfirst, parseInt_digit_first, <- Hfirst, Hp by assumption.
  simpl. f_equal.
Qed.

End Numerals.

(** ** Size, spacing and alignment lines *)

Section Lines.

Implicit Types report : string.
Implicit Types style rPr pPr sz spacing jc : Element.

Lemma parseInt_orElse v z :
  parseInt v = Num z -> orElse (Some v) "0" = v.
Proof. destruct v; [discriminate|reflexivity]. Qed.

Lemma halfToString_nonneg z :
  (0 <= z)%Z ->
  halfToString (Num z)
  = pretty (z / 2)%Z +:+ (if Z.even z then EmptyString else ".5").
Proof.
  intros Hz. unfold halfToString. destruct (Z.even z).
  - now rewrite app_nil_r.
  - destruct (Z.ltb_spec z 0) as [Hneg|_]; [lia|].
    now rewrite Z.abs_eq, app_nil_l by assumption.
Qed.

(** C6, as amended. For an included style whose run properties carry a
    size element whose value reads as the integer [z] (a count of half
    points, within the range where numbers are exact), the size line of
    the block shows [z] and then the exact quotient [z / 2]: the integer
    [z / 2] when [z] is even, and that integer followed by [.5] when [z]
    is odd.  No rounding to an integer takes place.  This holds in
    particular when the value is the decimal numeral of [z], which the
    line then repeats as it stands. *)
Theorem size_line report style rPr sz :
  relevant style ->
  item0 (getElementsByTagName style "w:rPr") = Some rPr ->
  item0 (getElementsByTagName rPr "w:sz") = Some sz ->
  (forall v z,
      getAttribute sz "w:val" = Some v ->
      parseInt v = Num z ->
      (0 <= z < 2 ^ 53)%Z ->
      processStyle report style
      = report +:+ headerLine style +:+ fontLine rPr
               +:+ (LF +:+ "  - 字号: " +:+ pretty z +:+ " (即 "
                       +:+ pretty (z / 2)%Z
                       +:+ (if Z.even z then EmptyString else ".5")
                       +:+ "pt)")
               +:+ boldLine rPr +:+ paragraphLines style)
  /\ (forall z,
         getAttribute sz "w:val" = Some (pretty z) ->
         (0 <= z < 2 ^ 53)%Z ->
         processStyle report style
         = report +:+ headerLine style +:+ fontLine rPr
                  +:+ (LF +:+ "  - 字号: " +:+ pretty z +:+ " (即 "
                          +:+ pretty (z / 2)%Z
                          +:+ (if Z.even z then EmptyString else ".5")
                          +:+ "pt)")
                  +:+ boldLine rPr +:+ paragraphLines style).
Proof.
  intros Hrel HrPr Hsz.
  assert (Hparsed : forall v z,
             getAttribute sz "w:val" = Some v ->
             parseInt v = Num z ->
             (0 <= z < 2 ^ 53)%Z ->
             processStyle report style
             = report +:+ headerLine style +:+ fontLine rPr
                      +:+ (LF +:+ "  - 字号: " +:+ pretty z +:+ " (即 "
                              +:+ pretty (z / 2)%Z
                              +:+ (if Z.even z then EmptyString else ".5")
                              +:+ "pt)")
                      +:+ boldLine rPr +:+ paragraphLines style).
  { intros v z Hval Hparse [Hz _].
    rewrite relevant_block by assumption.
    unfold runLines, sizeLine, sizeLineOf. rewrite HrPr, Hsz, Hval.
    rewrite (parseInt_orElse _ _ Hparse), Hparse.
    rewrite halfToString_nonneg by assumption.
    cbn [toString]. now rewrite !app_assoc. }
  split; [exact Hparsed|].
  intros z Hval Hz. apply (Hparsed _ _ Hval); [|exact Hz].
  apply parseInt_pretty. lia.
Qed.

(** C7. For an included style whose paragraph properties hold a spacing
    element and a justification element, the block ends with the spacing
    line and the alignment line, and these show the line value, the line
    rule and the justification value as they stand in the document: for
    [360], [auto] and [center] the lines read [360], [auto] and
    [center]. *)
Theorem paragraph_values_verbatim report style pPr spacing jc
        (line lineRule val : string) :
  relevant style ->
  item0 (getElementsByTagName style "w:pPr") = Some pPr ->
  item0 (getElementsByTagName pPr "w:spacing") = Some spacing ->
  item0 (getElementsByTagName pPr "w:jc") = Some jc ->
  getAttribute spacing "w:line" = Some line ->
  getAttribute spacing "w:lineRule" = Some lineRule ->
  getAttribute jc "w:val" = Some val ->
  processStyle report style
  = report +:+ headerLine style +:+ runLines style
           +:+ LF +:+ "  - 行距: " +:+ line +:+ " (规则: " +:+ lineRule +:+ ")"
           +:+ LF +:+ "  - 对齐: " +:+ val.
Proof.
  intros Hrel HpPr Hspacing Hjc Hline Hrule Hval.
  rewrite relevant_block by assumption.
  unfold paragraphLines, spacingLine, spacingLineOf, jcLine, jcLineOf.
  rewrite HpPr, Hspacing, Hjc, Hline, Hrule, Hval.
  cbn [tmpl]. now rewrite !app_assoc.
Qed.

End Lines.

(** ** Tree order *)

Section TreeOrder.

Lemma descendants_children tag attrs cs :
  descendants (Elem tag attrs cs)
  = flat_map (fun c => c :: descendants c) cs.
Proof.
  simpl. induction cs as [|c cs IH]; [reflexivity|].
  simpl. now rewrite IH.
Qed.

Lemma matches_style e :
  matches "w:style" e = String.eqb (tagName e) "w:style".
Proof. reflexivity. Qed.

(** In a styles part of the usual shape (the root is not a style and no
    style is nested in a child of the root) the collection of style
    elements is the list of the style children of the root, in their
    order. *)
Lemma styles_of_flat_document doc tag attrs cs :
  documentElement doc = Elem tag attrs cs ->
  tag <> "w:style" ->
  Forall (fun c => getElementsByTagName c "w:style" = []) cs ->
  Document_getElementsByTagName doc "w:style"
  = List.filter (fun c => String.eqb (tagName c) "w:style") cs.
Proof.
  intros Hroot Htag Hflat. unfold Document_getElementsByTagName.
  rewrite Hroot, descendants_children. simpl List.filter.
  rewrite matches_style. simpl tagName.
  apply String.eqb_neq in Htag. rewrite Htag. clear Hroot.
  induction Hflat as [|c cs Hc _ IH]; [reflexivity|].
  simpl. rewrite List.filter_app, IH, matches_style.
  unfold getElementsByTagName in Hc. rewrite Hc.
  now destruct (String.eqb (tagName c) "w:style").
Qed.

End TreeOrder.

(** ** Outcomes of the whole function *)

Section Claims.

Context {platform : Platform}.

Lemma header_is_no_fallback rest :
  reportHeader +:+ rest <> notFoundMessage
  /\ reportHeader +:+ rest <> parseFailureMessage.
Proof. split; intros H; discriminate H. Qed.

Lemma Return_inj {A} (a b : A) : Return a = Return b -> a = b.
Proof. now intros [= ->]. Qed.


(** C8. The report is the header followed by the blocks of the included
    style elements, in the order in which [getElementsByTagName] lists
    them, which is document order; nothing is sorted.  In a styles part
    of the usual shape that is the order of the style children of the
    root, and two included styles [a], [b] in that order give the block
    of [a] and then the block of [b]. *)
Theorem blocks_in_document_order file zip entry text :
  loadAsync file = Return zip ->
  JSZip_file zip "word/styles.xml" = Some entry ->
  async_text entry = Return text ->
  text <> EmptyString ->
  let styles :=
    Document_getElementsByTagName (parseFromString text) "w:style" in
  parseDocxStyles file
  = Return (reportHeader +:+ blocks (List.filter included styles))
  /\ (forall tag attrs cs,
         documentElement (parseFromString text) = Elem tag attrs cs ->
         tag <> "w:style" ->
         Forall (fun c => getElementsByTagName c "w:style" = []) cs ->
         styles
         = List.filter (fun c => String.eqb (tagName c) "w:style") cs)
  /\ (forall a b,
         List.filter included styles = [a; b] ->
         parseDocxStyles file
         = Return (reportHeader
                   +:+ (headerLine a +:+ runLines a +:+ paragraphLines a)
                   +:+ (headerLine b +:+ runLines b +:+ paragraphLines b))).
Proof.
  intros Hload Hfile Hread Htext styles.
  assert (Hreport : parseDocxStyles file
                    = Return (reportHeader
                              +:+ blocks (List.filter included styles))).
  { rewrite (parseDocxStyles_report _ _ _ _ Hload Hfile Hread Htext).
    now rewrite <- blocks_filter. }
  split; [exact Hreport|split].
  - intros tag attrs cs. apply styles_of_flat_document.
  - intros a b Hab. rewrite Hreport, Hab.
    assert (Ha : included a = true /\ included b = true).
    { assert (Hin : forall x, In x [a; b] -> included x = true).
      { intros x Hx. rewrite <- Hab in Hx.
        now apply List.filter_In in Hx. }
      split; apply Hin; simpl; auto. }
    destruct Ha as [Ha Hb].
    rewrite !blocks_cons, blocks_nil, app_nil_r.
    now rewrite (included_block _ Ha), (included_block _ Hb).
Qed.

(** C10, as amended. When the archive opens and its styles part is read
    as a non-empty text, the result begins with the report header line,
    whatever the text; when no style element passes the filter the result
    is the header line alone; and no text that begins with the header is
    one of the two fallback messages. *)
Theorem report_starts_with_header file zip entry text :
  loadAsync file = Return zip ->
  JSZip_file zip "word/styles.xml" = Some entry ->
  async_text entry = Return text ->
  text <> EmptyString ->
  (exists rest, parseDocxStyles file = Return (reportHeader +:+ rest))
  /\ (Forall (fun style => ~ relevant style)
             (Document_getElementsByTagName (parseFromString text)
                                            "w:style") ->
      parseDocxStyles file = Return reportHeader)
  /\ (forall rest, reportHeader +:+ rest <> notFoundMessage
                   /\ reportHeader +:+ rest <> parseFailureMessage).
Proof.
  intros Hload Hfile Hread Htext.
  rewrite (parseDocxStyles_report _ _ _ _ Hload Hfile Hread Htext).
  split; [eauto|split; [|apply header_is_no_fallback]].
  intros Hnone. f_equal.
  induction Hnone as [|style styles Hstyle _ IH].
  - now rewrite blocks_nil, app_nil_r.
  - rewrite blocks_cons, not_included_block, app_nil_l; [exact IH|].
    destruct (included style) eqn:E; [|reflexivity].
    now apply included_relevant in E.
Qed.

(** C3, what the program does. A styles part that is present with a
    non-empty text never yields the parse failure message, well formed or
    not: the parser does not throw, so the [catch] clause is not reached,
    and the result begins with the report header.  When the document the
    parser returns has no style element, as the error document of a
    malformed text, the result is the header line alone. *)
Theorem malformed_xml_gives_header file zip entry text :
  loadAsync file = Return zip ->
  JSZip_file zip "word/styles.xml" = Some entry ->
  async_text entry = Return text ->
  text <> EmptyString ->
  parseDocxStyles file <> Return parseFailureMessage
  /\ (Document_getElementsByTagName (parseFromString text) "w:style" = [] ->
      parseDocxStyles file = Return reportHeader).
Proof.
  intros Hload Hfile Hread Htext.
  rewrite (parseDocxStyles_report _ _ _ _ Hload Hfile Hread Htext). split.
  - intros H. apply Return_inj in H.
    now apply (header_is_no_fallback _) in H.
  - intros ->. now rewrite blocks_nil, app_nil_r.
Qed.

(** C4. For an archive that opens and has no entry at the path
    [word/styles.xml], the function returns the message that the part was
    not found, and it returns: no exception reaches the caller. *)
Theorem missing_styles_part file zip :
  loadAsync file = Return zip ->
  files zip !! "word/styles.xml" = None ->
  parseDocxStyles file = Return notFoundMessage
  /\ (forall e, parseDocxStyles file <> Throw e).
Proof.
  intros Hload Hfile.
  assert (Hnull : JSZip_file zip "word/styles.xml" = None)
    by (unfold JSZip_file; now rewrite Hfile).
  rewrite (parseDocxStyles_no_entry _ _ Hload Hnull).
  split; [reflexivity|discriminate].
Qed.

(** C5, as amended. When the bytes are not a ZIP archive, so that opening
    them throws, the function recovers: it returns the general parse
    failure message, which is not the message for a missing part, and no
    exception reaches the caller. *)
Theorem invalid_archive_recovered file e :
  loadAsync file = Throw e ->
  parseDocxStyles file = Return parseFailureMessage
  /\ parseDocxStyles file <> Return notFoundMessage
  /\ (forall e', parseDocxStyles file <> Throw e').
Proof.
  intros Hload. rewrite (parseDocxStyles_not_archive _ _ Hload).
  repeat split; discriminate.
Qed.

End Claims.

(** ** The claims on the sample documents *)

Section Samples.

Import Sample.

Local Existing Instance testPlatform.

(** The block of the heading of the specification's example. *)
Example heading1_block :
  processStyle EmptyString heading1
  = LF +:+ "[样式名称: heading 1 (ID: Heading1)]"
    +:+ LF +:+ "  - 字体: 西文=" +:+ DQ +:+ "Times New Roman" +:+ DQ
    +:+ ", 中文=" +:+ DQ +:+ "SimSun" +:+ DQ
    +:+ LF +:+ "  - 字号: 24 (即 12pt)"
    +:+ LF +:+ "  - 加粗: 是"
    +:+ LF +:+ "  - 行距: 360 (规则: auto)"
    +:+ LF +:+ "  - 对齐: center".
Proof. vm_compute. reflexivity. Qed.

(** The report of the sample styles part: [Normal] before [Heading1],
    nothing for [Caption]. *)
Example sample_report :
  parseDocxStyles (docxWith stylesXml)
  = Return (reportHeader
            +:+ processStyle EmptyString normal
            +:+ processStyle EmptyString heading1
            +:+ processStyle EmptyString heading2).
Proof. vm_compute. reflexivity. Qed.

Example unreadable_part :
  parseDocxStyles docxUnreadable = Return parseFailureMessage.
Proof. vm_compute. reflexivity. Qed.

Lemma nonempty_stylesXml : stylesXml <> EmptyString.
Proof. vm_compute. discriminate. Defined.

Lemma nonempty_captionXml : captionXml <> EmptyString.
Proof. vm_compute. discriminate. Defined.

Lemma nonempty_truncatedXml : truncatedXml <> EmptyString.
Proof. vm_compute. discriminate. Defined.

Lemma relevant_heading1 : relevant heading1.
Proof.
  left. exists "Heading1". split; [reflexivity|].
  exists EmptyString, "Heading", "1". split; reflexivity.
Defined.


Lemma relevant_normal : relevant normal.
Proof. right. right. reflexivity. Defined.

Lemma irrelevant_caption : ~ relevant caption.
Proof. intros H. apply included_relevant in H. discriminate H. Defined.




Lemma size_line_witness :
  processStyle EmptyString heading1
  = EmptyString +:+ headerLine heading1 +:+ fontLine heading1_rPr
    +:+ (LF +:+ "  - 字号: " +:+ "24" +:+ " (即 " +:+ "12"
            +:+ EmptyString +:+ "pt)")
    +:+ boldLine heading1_rPr +:+ paragraphLines heading1.
Proof.
  apply (proj1 (size_line EmptyString heading1 heading1_rPr heading1_sz
                  relevant_heading1 eq_refl eq_refl) "24" 24%Z
           eq_refl eq_refl).
  lia.
Defined.

Lemma paragraph_values_verbatim_witness :
  processStyle EmptyString heading1
  = EmptyString +:+ headerLine heading1 +:+ runLines heading1
    +:+ LF +:+ "  - 行距: " +:+ "360" +:+ " (规则: " +:+ "auto" +:+ ")"
    +:+ LF +:+ "  - 对齐: " +:+ "center".
Proof.
  exact (paragraph_values_verbatim EmptyString heading1 heading1_pPr
           spacing360 heading1_jc "360" "auto" "center"
           relevant_heading1 eq_refl eq_refl eq_refl
           eq_refl eq_refl eq_refl).
Defined.

(** The size of the body text, 21 half points, is shown as 10.5 points:
    the size line is not the line that integer division would give. *)
Lemma size_line_integer_division_fails :
  ~ (forall report style rPr sz v z,
        relevant style ->
        item0 (getElementsByTagName style "w:rPr") = Some rPr ->
        item0 (getElementsByTagName rPr "w:sz") = Some sz ->
        getAttribute sz "w:val" = Some v ->
        parseInt v = Num z ->
        processStyle report style
        = report +:+ headerLine style +:+ fontLine rPr
                 +:+ sizeLineIntegerDivision z
                 +:+ boldLine rPr +:+ paragraphLines style).
Proof.
  intros H.
  specialize (H EmptyString normal normal_rPr normal_sz "21" 21%Z
                relevant_normal eq_refl eq_refl eq_refl eq_refl).
  vm_compute in H. discriminate H.
Qed.

Example size_line_odd :
  sizeLine normal_rPr = LF +:+ "  - 字号: 21 (即 10.5pt)"
  /\ sizeLineIntegerDivision 21 = LF +:+ "  - 字号: 21 (即 10pt)".
Proof. split; vm_compute; reflexivity. Qed.

Lemma blocks_in_document_order_witness :
  parseDocxStyles (docxWith stylesXml)
  = Return (reportHeader
            +:+ blocks (List.filter included
                          (Document_getElementsByTagName
                             (parseFromString stylesXml) "w:style"))).
Proof.
  exact (proj1 (blocks_in_document_order (platform := testPlatform)
                  (docxWith stylesXml) (zipWith stylesXml)
                  (textEntry stylesXml) stylesXml
                  eq_refl eq_refl eq_refl nonempty_stylesXml)).
Defined.

Lemma report_starts_with_header_witness :
  parseDocxStyles (docxWith captionXml) = Return reportHeader.
Proof.
  apply (report_starts_with_header (platform := testPlatform)
           (docxWith captionXml) (zipWith captionXml)
           (textEntry captionXml) captionXml
           eq_refl eq_refl eq_refl nonempty_captionXml).
  vm_compute Document_getElementsByTagName.
  constructor; [exact irrelevant_caption|constructor].
Defined.

(** A styles part that is present but empty is reported as missing, so a
    present part does not always give the report header. *)
Lemma present_part_without_header :
  ~ (forall (platform : Platform) (file : File) zip entry,
        loadAsync file = Return zip ->
        JSZip_file zip "word/styles.xml" = Some entry ->
        exists rest, parseDocxStyles file = Return (reportHeader +:+ rest)).
Proof.
  intros H.
  destruct (H testPlatform (docxWith EmptyString) (zipWith EmptyString)
              (textEntry EmptyString) eq_refl eq_refl) as [rest Hrest].
  vm_compute in Hrest. discriminate Hrest.
Qed.

Example empty_part :
  parseDocxStyles (docxWith EmptyString) = Return notFoundMessage.
Proof. vm_compute. reflexivity. Qed.

Lemma malformed_xml_gives_header_witness :
  parseDocxStyles (docxWith truncatedXml) <> Return parseFailureMessage
  /\ parseDocxStyles (docxWith truncatedXml) = Return reportHeader.
Proof.
  destruct (malformed_xml_gives_header (platform := testPlatform)
              (docxWith truncatedXml) (zipWith truncatedXml)
              (textEntry truncatedXml) truncatedXml
              eq_refl eq_refl eq_refl nonempty_truncatedXml)
    as [Hnot Hheader].
  split; [exact Hnot|apply Hheader; reflexivity].
Defined.

Lemma missing_styles_part_witness :
  parseDocxStyles docxWithoutStyles = Return notFoundMessage.
Proof.
  apply (missing_styles_part (platform := testPlatform)
         docxWithoutStyles zipWithoutStyles eq_refl).
  vm_compute. reflexivity.
Defined.

Lemma invalid_archive_recovered_witness :
  parseDocxStyles NotAnArchive = Return parseFailureMessage.
Proof.
  exact (proj1 (invalid_archive_recovered (platform := testPlatform)
                  NotAnArchive ArchiveError eq_refl)).
Defined.

(** Bytes that are not an archive are not reported as a missing part. *)
Lemma invalid_archive_is_not_reported_missing :
  ~ (forall (platform : Platform) (file : File) e,
        loadAsync file = Throw e ->
        parseDocxStyles file = Return notFoundMessage).
Proof.
  intros H.
  specialize (H testPlatform NotAnArchive ArchiveError eq_refl).
  vm_compute in H. discriminate H.
Qed.

End Samples.

(** * Further properties of the report generator *)

(** ** Outcomes *)

Section MoreOutcomes.

Context {platform : Platform}.

(** X1. Whatever the file, the call returns: no exception leaves
    [parseDocxStyles].  The text it returns is the parse failure message,
    the message for a missing part, or a text that begins with the report
    header; it is never empty. *)
Theorem parseDocxStyles_outcome file :
  exists text,
    parseDocxStyles file = Return text
    /\ (text = parseFailureMessage \/ text = notFoundMessage
        \/ exists rest, text = reportHeader +:+ rest)
    /\ text <> EmptyString.
Proof.
  unfold parseDocxStyles, tryBlock.
  destruct (loadAsync file) as [zip|e]; cbn [bind tryCatch].
  2: { eexists. split; [reflexivity|]. split; [now left|discriminate]. }
  destruct (JSZip_file zip "word/styles.xml") as [entry|]; cbn [bind].
  2: { eexists. split; [reflexivity|].
       split; [right; now left|discriminate]. }
  destruct (async_text entry) as [[|c text]|e]; cbn [bind falsy isEmpty].
  - eexists. split; [reflexivity|]. split; [right; now left|discriminate].
  - rewrite forLoop_all. eexists. split; [reflexivity|].
    split; [right; right; eauto|discriminate].
  - eexists. split; [reflexivity|]. split; [now left|discriminate].
Qed.

(** X2. When the archive opens and holds the styles part, but reading the
    text of the part throws, the exception is caught and the result is the
    general parse failure message. *)
Theorem unreadable_styles_part file zip entry e :
  loadAsync file = Return zip ->
  JSZip_file zip "word/styles.xml" = Some entry ->
  async_text entry = Throw e ->
  parseDocxStyles file = Return parseFailureMessage.
Proof.
  intros Hload Hfile Hread. unfold parseDocxStyles, tryBlock.
  rewrite Hload. cbn [bind]. rewrite Hfile, Hread. reflexivity.
Qed.

(** X3. A styles part that is present but whose text is empty is handled
    like a missing part: whatever the parser would make of the empty text,
    the result is the message that the part was not found. *)
Theorem empty_styles_part file zip entry :
  loadAsync file = Return zip ->
  JSZip_file zip "word/styles.xml" = Some entry ->
  async_text entry = Return EmptyString ->
  parseDocxStyles file = Return notFoundMessage.
Proof.
  intros Hload Hfile Hread. unfold parseDocxStyles, tryBlock.
  rewrite Hload. cbn [bind]. rewrite Hfile, Hread. reflexivity.
Qed.

End MoreOutcomes.

(** ** Lines of a block at the edges *)

Section MoreLines.

Implicit Types report : string.
Implicit Types style rPr pPr rFonts sz spacing jc : Element.

(** X4. In the font line of an included style, a font attribute that is
    absent or empty is shown as the default label, and one that names a
    font is shown as it stands; the Latin font comes first, the East-Asian
    font second. *)
Theorem font_line_defaults report style rPr rFonts :
  relevant style ->
  item0 (getElementsByTagName style "w:rPr") = Some rPr ->
  item0 (getElementsByTagName rPr "w:rFonts") = Some rFonts ->
  let shown (font : option string) : string :=
    match font with
    | Some (String c name) => String c name
    | Some EmptyString | None => "默认"
    end in
  processStyle report style
  = report +:+ headerLine style
           +:+ (LF +:+ "  - 字体: 西文=" +:+ DQ
                   +:+ shown (getAttribute rFonts "w:ascii") +:+ DQ
                   +:+ ", 中文=" +:+ DQ
                   +:+ shown (getAttribute rFonts "w:eastAsia") +:+ DQ)
           +:+ sizeLine rPr +:+ boldLine rPr +:+ paragraphLines style.
Proof.
  intros Hrel HrPr Hfonts shown.
  rewrite relevant_block by assumption.
  unfold runLines, fontLine. rewrite HrPr, Hfonts.
  assert (Hshown : forall v, orElse v "默认" = shown v)
    by (intros [[|c name]|]; reflexivity).
  now rewrite !Hshown, !app_assoc.
Qed.

(** X5. A size element without a value, or with an empty value, is read
    as size 0: the size line shows 0 half points and 0 points. *)
Theorem size_line_missing_value report style rPr sz :
  relevant style ->
  item0 (getElementsByTagName style "w:rPr") = Some rPr ->
  item0 (getElementsByTagName rPr "w:sz") = Some sz ->
  getAttribute sz "w:val" = None
  \/ getAttribute sz "w:val" = Some EmptyString ->
  processStyle report style
  = report +:+ headerLine style +:+ fontLine rPr
           +:+ (LF +:+ "  - 字号: 0 (即 0pt)")
           +:+ boldLine rPr +:+ paragraphLines style.
Proof.
  intros Hrel HrPr Hsz Hval.
  rewrite relevant_block by assumption.
  unfold runLines, sizeLine. rewrite HrPr, Hsz.
  destruct Hval as [-> | ->]; now rewrite !app_assoc.
Qed.

(** X6. A size value that does not start with a number (after white space
    and a sign) is not rejected: the size line shows [NaN] for the half
    points and [NaN] for the points. *)
Theorem size_line_not_a_number report style rPr sz v :
  relevant style ->
  item0 (getElementsByTagName style "w:rPr") = Some rPr ->
  item0 (getElementsByTagName rPr "w:sz") = Some sz ->
  getAttribute sz "w:val" = Some v ->
  v <> EmptyString ->
  parseInt v = NaN ->
  processStyle report style
  = report +:+ headerLine style +:+ fontLine rPr
           +:+ (LF +:+ "  - 字号: NaN (即 NaNpt)")
           +:+ boldLine rPr +:+ paragraphLines style.
Proof.
  intros Hrel HrPr Hsz Hval Hne Hparse.
  rewrite relevant_block by assumption.
  unfold runLines, sizeLine. rewrite HrPr, Hsz, Hval.
  assert (Hor : orElse (Some v) "0" = v) by now destruct v.
  rewrite Hor, Hparse. now rewrite !app_assoc.
Qed.

(** X7. Spacing and justification elements are reported whenever they are
    present, also without their attributes: a missing line value, line
    rule or justification value is printed as the word [null]. *)
Theorem absent_paragraph_attributes report style pPr spacing jc :
  relevant style ->
  item0 (getElementsByTagName style "w:pPr") = Some pPr ->
  item0 (getElementsByTagName pPr "w:spacing") = Some spacing ->
  item0 (getElementsByTagName pPr "w:jc") = Some jc ->
  let shown (value : option string) : string :=
    match value with Some text => text | None => "null" end in
  processStyle report style
  = report +:+ headerLine style +:+ runLines style
           +:+ (LF +:+ "  - 行距: "
                   +:+ shown (getAttribute spacing "w:line") +:+ " (规则: "
                   +:+ shown (getAttribute spacing "w:lineRule") +:+ ")")
           +:+ (LF +:+ "  - 对齐: " +:+ shown (getAttribute jc "w:val")).
Proof.
  intros Hrel HpPr Hspacing Hjc shown.
  rewrite relevant_block by assumption.
  unfold paragraphLines, spacingLine, spacingLineOf, jcLine, jcLineOf.
  rewrite HpPr, Hspacing, Hjc.
  change tmpl with shown. now rewrite !app_assoc.
Qed.

(** X8. The block of a style is determined by four things: its identifier
    attribute and the first name, run-properties and paragraph-properties
    elements below it.  Two style elements that agree on these give the
    same text; other attributes and children (the style type, the style it
    is based on, later run properties) have no influence. *)
Theorem block_determined_by_observed_parts report style1 style2 :
  getAttribute style1 "w:styleId" = getAttribute style2 "w:styleId" ->
  item0 (getElementsByTagName style1 "w:name")
  = item0 (getElementsByTagName style2 "w:name") ->
  item0 (getElementsByTagName style1 "w:rPr")
  = item0 (getElementsByTagName style2 "w:rPr") ->
  item0 (getElementsByTagName style1 "w:pPr")
  = item0 (getElementsByTagName style2 "w:pPr") ->
  processStyle report style1 = processStyle report style2.
Proof.
  intros Hid Hname HrPr HpPr.
  rewrite !processStyle_block. f_equal.
  unfold styleBlock, included, headerLine, runLines, paragraphLines,
    displayName.
  now rewrite Hid, Hname, HrPr, HpPr.
Qed.

(** X11. A style element without an identifier passes the filter only by
    its name: it is included exactly when its name element has the value
    [Normal], and its header line then shows [null] as the identifier. *)
Theorem style_without_identifier report style :
  getAttribute style "w:styleId" = None ->
  (relevant style <-> displayName style = Some "Normal")
  /\ (displayName style = Some "Normal" ->
      processStyle report style
      = report +:+ (LF +:+ "[样式名称: Normal (ID: null)]")
               +:+ runLines style +:+ paragraphLines style)
  /\ (displayName style <> Some "Normal" ->
      processStyle report style = report).
Proof.
  intros Hid.
  assert (Hrel : relevant style <-> displayName style = Some "Normal").
  { unfold relevant. rewrite Hid. split; [|auto].
    intros [(id & [=] & _)|[(id & [=] & _)|H]]; exact H. }
  split; [exact Hrel|split].
  - intros Hname. rewrite relevant_block by now apply Hrel.
    unfold headerLine. rewrite Hname, Hid. now rewrite !app_assoc.
  - intros Hname. apply irrelevant_block. now rewrite Hrel.
Qed.

End MoreLines.

(** ** Deep search and the loop *)

Section MoreLoop.

Implicit Types report : string.

Lemma getElementsByTagName_cons tag attrs c cs q :
  getElementsByTagName (Elem tag attrs (c :: cs)) q
  = (if matches q c then [c] else [])
      ++ getElementsByTagName c q
      ++ getElementsByTagName (Elem tag attrs cs) q.
Proof.
  unfold getElementsByTagName. rewrite !descendants_children.
  simpl flat_map. simpl List.filter. rewrite List.filter_app.
  now destruct (matches q c).
Qed.

(** X12. The run properties of a style are the first [w:rPr] element
    anywhere below it, not the first among its children: when the first
    child of the style is not itself a [w:rPr] and holds one (as paragraph
    properties that carry the run properties of the paragraph mark), the
    font, size and bold lines of the block are read from that nested
    element. *)
Theorem nested_run_properties_are_used report tag attrs first rest inner :
  let style := Elem tag attrs (first :: rest) in
  relevant style ->
  tagName first <> "w:rPr" ->
  item0 (getElementsByTagName first "w:rPr") = Some inner ->
  processStyle report style
  = report +:+ headerLine style +:+ fontLine inner +:+ sizeLine inner
           +:+ boldLine inner +:+ paragraphLines style.
Proof.
  intros style Hrel Htag Hinner.
  assert (HrPr : item0 (getElementsByTagName style "w:rPr") = Some inner).
  { unfold style. rewrite getElementsByTagName_cons.
    assert (Hno : matches "w:rPr" first = false)
      by now apply String.eqb_neq.
    rewrite Hno. cbn [app].
    destruct (getElementsByTagName first "w:rPr") as [|x l]; [discriminate|].
    exact Hinner. }
  rewrite relevant_block by assumption.
  unfold runLines. rewrite HrPr. now rewrite !app_assoc.
Qed.

(** X9. The loop is compositional: running it over a collection that is
    the concatenation of two gives what running it over the second gives
    when started from the result of the first.  The text a style adds does
    not depend on the styles around it. *)
Theorem loop_composes (styles1 styles2 : list Element) report :
  forLoop (length (styles1 ++ styles2)) (styles1 ++ styles2) 0 report
  = forLoop (length styles2) styles2 0
            (forLoop (length styles1) styles1 0 report).
Proof. now rewrite !forLoop_all, blocks_app, app_assoc. Qed.

(** X10. The loop body only appends: the report it is given is a prefix
    of the report it returns, what it adds does not depend on the report so
    far, and the report never gets shorter. *)
Theorem processStyle_only_appends report1 report2 style :
  processStyle (report1 +:+ report2) style
  = report1 +:+ processStyle report2 style
  /\ String.prefix report1 (processStyle report1 style) = true
  /\ (String.length report1
      <= String.length (processStyle report1 style))%nat.
Proof.
  rewrite !processStyle_block. split; [apply app_assoc|split].
  - apply prefix_app. eauto.
  - rewrite app_length. lia.
Qed.

End MoreLoop.

(** ** The further properties on sample styles *)

Section MoreSamples.

Import Sample Edge.

Local Existing Instance testPlatform.

Lemma relevant_heading3 : relevant heading3.
Proof.
  left. exists "Heading3". split; [reflexivity|].
  exists EmptyString, "Heading", "3". split; reflexivity.
Defined.

Lemma relevant_heading4 : relevant heading4.
Proof.
  left. exists "Heading4". split; [reflexivity|].
  exists EmptyString, "Heading", "4". split; reflexivity.
Defined.

Lemma relevant_nestedHeading : relevant nestedHeading.
Proof.
  left. exists "Heading5". split; [reflexivity|].
  exists EmptyString, "Heading", "5". split; reflexivity.
Defined.

Lemma unreadable_styles_part_witness :
  parseDocxStyles docxUnreadable = Return parseFailureMessage.
Proof.
  refine (unreadable_styles_part (platform := testPlatform) docxUnreadable
            _ _ ReadError eq_refl eq_refl eq_refl).
Defined.

Lemma empty_styles_part_witness :
  parseDocxStyles (docxWith EmptyString) = Return notFoundMessage.
Proof.
  exact (empty_styles_part (platform := testPlatform)
           (docxWith EmptyString) (zipWith EmptyString)
           (textEntry EmptyString) eq_refl eq_refl eq_refl).
Defined.

Lemma font_line_defaults_witness :
  processStyle EmptyString heading3
  = EmptyString +:+ headerLine heading3
    +:+ (LF +:+ "  - 字体: 西文=" +:+ DQ +:+ "默认" +:+ DQ
            +:+ ", 中文=" +:+ DQ +:+ "默认" +:+ DQ)
    +:+ sizeLine heading3_rPr +:+ boldLine heading3_rPr
    +:+ paragraphLines heading3.
Proof.
  exact (font_line_defaults EmptyString heading3 heading3_rPr
           heading3_rFonts relevant_heading3 eq_refl eq_refl).
Defined.

Lemma size_line_missing_value_witness :
  processStyle EmptyString heading3
  = EmptyString +:+ headerLine heading3 +:+ fontLine heading3_rPr
    +:+ (LF +:+ "  - 字号: 0 (即 0pt)")
    +:+ boldLine heading3_rPr +:+ paragraphLines heading3.
Proof.
  apply (size_line_missing_value EmptyString heading3 heading3_rPr
           heading3_sz relevant_heading3 eq_refl eq_refl).
  left. reflexivity.
Defined.

Lemma size_line_not_a_number_witness :
  processStyle EmptyString heading4
  = EmptyString +:+ headerLine heading4 +:+ fontLine heading4_rPr
    +:+ (LF +:+ "  - 字号: NaN (即 NaNpt)")
    +:+ boldLine heading4_rPr +:+ paragraphLines heading4.
Proof.
  apply (size_line_not_a_number EmptyString heading4 heading4_rPr
           heading4_sz "large" relevant_heading4 eq_refl eq_refl eq_refl);
    [discriminate|reflexivity].
Defined.

Lemma absent_paragraph_attributes_witness :
  processStyle EmptyString heading3
  = EmptyString +:+ headerLine heading3 +:+ runLines heading3
    +:+ (LF +:+ "  - 行距: " +:+ "null" +:+ " (规则: " +:+ "null" +:+ ")")
    +:+ (LF +:+ "  - 对齐: " +:+ "null").
Proof.
  exact (absent_paragraph_attributes EmptyString heading3 heading3_pPr
           heading3_spacing heading3_jc relevant_heading3
           eq_refl eq_refl eq_refl).
Defined.

Lemma block_determined_by_observed_parts_witness :
  processStyle reportHeader heading1
  = processStyle reportHeader heading1_based.
Proof.
  exact (block_determined_by_observed_parts reportHeader heading1
           heading1_based eq_refl eq_refl eq_refl eq_refl).
Defined.

Lemma style_without_identifier_witness :
  processStyle EmptyString unnamedNormal
  = EmptyString +:+ (LF +:+ "[样式名称: Normal (ID: null)]")
    +:+ runLines unnamedNormal +:+ paragraphLines unnamedNormal.
Proof.
  apply (style_without_identifier EmptyString unnamedNormal eq_refl).
  reflexivity.
Defined.

Lemma nested_run_properties_are_used_witness :
  processStyle EmptyString nestedHeading
  = EmptyString +:+ headerLine nestedHeading +:+ fontLine markRPr
    +:+ sizeLine markRPr +:+ boldLine markRPr
    +:+ paragraphLines nestedHeading.
Proof.
  apply (nested_run_properties_are_used EmptyString "w:style"
           [("w:type", "paragraph"); ("w:styleId", "Heading5")]
           (Elem "w:pPr" [] [markRPr; heading1_jc])
           [Elem "w:rPr" [] [leaf "w:sz" [("w:val", "32")]]] markRPr
           relevant_nestedHeading);
    [discriminate|reflexivity].
Defined.

(** The nested size, 18 half points, is the one reported. *)
Example nested_size_reported :
  processStyle EmptyString nestedHeading
  = LF +:+ "[样式名称: Heading5 (ID: Heading5)]"
    +:+ LF +:+ "  - 字号: 18 (即 9pt)"
    +:+ LF +:+ "  - 对齐: center".
Proof. vm_compute. reflexivity. Qed.

End MoreSamples.

(** * The application around the report generator *)

(** ** The step indicator *)

Section Indicator.

Import App.

Context {platform : Platform} {services : Services}.

Lemma currentIndex_range currentStep :
  (0 <= currentIndex currentStep < 5)%Z.
Proof. destruct currentStep; vm_compute; intuition congruence. Qed.

(** X13. Of the five buttons of the indicator exactly one is active, the
    one of the current step; the buttons before it are completed and the
    buttons after it are pending, and no button has two of these states. *)
Theorem indicator_statuses hasHandler currentStep index button :
  renderSteps hasHandler currentStep !! index = Some button ->
  (isActive button = true <-> button_step button = currentStep)
  /\ (isCompleted button = true
      <-> (Z.of_nat index < currentIndex currentStep)%Z)
  /\ (isPending button = true
      <-> (currentIndex currentStep < Z.of_nat index)%Z)
  /\ (isActive button, isCompleted button, isPending button)
     ∈ [(true, false, false); (false, true, false); (false, false, true)].
Proof.
  intros Hbutton.
  do 5 (destruct index as [|index];
        [injection Hbutton as <-; destruct currentStep; vm_compute;
         repeat split; try congruence; try discriminate; try lia;
         set_solver|]).
  discriminate Hbutton.
Qed.

(** X14. A click on the step indicator never moves forward.  Whatever
    button is clicked, in whatever state, the step afterwards is the step
    before, or an earlier one; only the current step changes; nothing
    changes while the application is loading; and the report is entered
    only when there is a result. *)
Theorem indicator_click_goes_back (st : AppState) (index : nat) :
  let st' := clickButton (Some handleStepClick) (currentStep st) index st in
  (currentIndex (currentStep st') <= currentIndex (currentStep st))%Z
  /\ st' = setCurrentStep (currentStep st') st
  /\ (isLoading st = true -> st' = st)
  /\ (currentStep st' = REPORT -> currentStep st <> REPORT ->
      analysisResult st <> None).
Proof.
  destruct st as [step text html style file mode reqs b64 mime fname
                  fprev result changed fixed loading extracting].
  cbn zeta. cbn [currentStep isLoading analysisResult].
  do 5 (destruct index as [|index];
        [destruct step, loading, result; vm_compute;
         repeat split; congruence|]).
  destruct step, loading, result; vm_compute; repeat split; congruence.
Qed.

End Indicator.

(** ** Uploading a thesis *)

Section Upload.

Import App.

Context {platform : Platform} {services : Services}.

Lemma parseDocxStyles_returns_text file :
  exists report,
    parseDocxStyles file = Return report /\ blank report = false.
Proof.
  unfold parseDocxStyles, tryBlock.
  destruct (loadAsync file) as [zip|e]; cbn [bind tryCatch]; [|eauto].
  destruct (JSZip_file zip "word/styles.xml") as [entry|]; cbn [bind];
    [|eauto].
  destruct (async_text entry) as [[|c text]|e]; cbn [bind falsy isEmpty];
    [eauto| |eauto].
  rewrite forLoop_all. eauto.
Qed.

(** X15. When the buffer of a Word document can be read and the document
    library converts it, the upload succeeds whatever the archive holds:
    the style extraction cannot make it fail.  The state then holds the
    HTML, the raw text and, as style analysis, the text that
    [parseDocxStyles] returns for the file, which is never empty; the view
    switches to the preview and no alert is shown. *)
Theorem docx_upload_succeeds (st : AppState) file buffer html raw :
  isDocx file = true ->
  File_arrayBuffer file = Fulfilled buffer ->
  convertToHtml buffer = Fulfilled html ->
  extractRawText buffer = Fulfilled raw ->
  exists report,
    parseDocxStyles file = Return report
    /\ report <> EmptyString
    /\ handleThesisFileUpload st (Some file)
       = (setViewMode preview
            (setThesisStyleAnalysis report
               (setThesisText raw
                  (setThesisHtml html
                     (setInputsChanged true
                        (setThesisFile (Some file) st))))), []).
Proof.
  intros Hdocx Hbuffer Hhtml Hraw.
  destruct (parseDocxStyles_returns_text file) as (report & Hreport & Hne).
  exists report. split; [exact Hreport|split].
  - now destruct report.
  - unfold handleThesisFileUpload. fold (isDocx file).
    now rewrite Hdocx, Hbuffer, Hhtml, Hraw, Hreport.
Qed.

(** X16. A Word upload that fails leaves a mixed state.  The new file is
    stored and the inputs count as changed, but the text and the style
    analysis of the document loaded before stay as they were; when only
    the extraction of the raw text fails, the HTML is already that of the
    new file. *)
Theorem failed_docx_upload_keeps_old_analysis (st : AppState) file e :
  isDocx file = true ->
  (File_arrayBuffer file = Rejected e
   \/ (exists buffer, File_arrayBuffer file = Fulfilled buffer
                      /\ convertToHtml buffer = Rejected e) ->
   handleThesisFileUpload st (Some file)
   = (setInputsChanged true (setThesisFile (Some file) st),
      [alertUnreadableDocx]))
  /\ (forall buffer html,
         File_arrayBuffer file = Fulfilled buffer ->
         convertToHtml buffer = Fulfilled html ->
         extractRawText buffer = Rejected e ->
         handleThesisFileUpload st (Some file)
         = (setThesisHtml html
              (setInputsChanged true (setThesisFile (Some file) st)),
            [alertUnreadableDocx]))
  /\ (forall st' alerts,
         handleThesisFileUpload st (Some file) = (st', alerts) ->
         alerts <> [] ->
         thesisFile st' = Some file
         /\ inputsChanged st' = true
         /\ thesisText st' = thesisText st
         /\ thesisStyleAnalysis st' = thesisStyleAnalysis st
         /\ viewMode st' = viewMode st).
Proof.
  intros Hdocx. unfold handleThesisFileUpload. fold (isDocx file).
  rewrite Hdocx. split; [|split].
  - intros [Hbuffer|(buffer & Hbuffer & Hhtml)]; rewrite Hbuffer;
      [reflexivity|now rewrite Hhtml].
  - intros buffer html Hbuffer Hhtml Hraw.
    now rewrite Hbuffer, Hhtml, Hraw.
  - intros st' alerts Hupload Halerts.
    destruct (File_arrayBuffer file) as [buffer|?];
      [|injection Hupload as <- <-; now destruct st].
    destruct (convertToHtml buffer) as [html|?];
      [|injection Hupload as <- <-; now destruct st].
    destruct (extractRawText buffer) as [raw|?];
      [|injection Hupload as <- <-; now destruct st].
    destruct (parseDocxStyles_returns_text file) as (report & Hreport & _).
    rewrite Hreport in Hupload. injection Hupload as <- <-. congruence.
Qed.

End Upload.

(** ** The parts of the analysis request *)

Section RequestParts.

Variable substring : string -> N -> N -> string.

Lemma analysisParts_layout content formatRequirements docxStyleAnalysis
      formatFileBase64 formatFileMimeType isHtml :
  analysisParts substring content formatRequirements docxStyleAnalysis
                formatFileBase64 formatFileMimeType isHtml
  = fileParts formatFileBase64 formatFileMimeType
      ++ requirementsParts formatRequirements
      ++ evidenceParts docxStyleAnalysis
      ++ [contentPart isHtml (substring content 0%N 30000%N)].
Proof.
  unfold analysisParts, fileParts, requirementsParts, evidenceParts.
  destruct formatFileBase64 as [data|], formatFileMimeType as [mimeType|];
    try destruct (negb (blank data) && negb (blank mimeType));
    destruct (negb (blank formatRequirements)
              && (0 <? String.length (trim formatRequirements))%nat);
    destruct docxStyleAnalysis as [analysis|];
    try destruct (negb (blank analysis)); reflexivity.
Qed.

Lemma kind_reference : partKind referencePart = ReferenceKind.
Proof. reflexivity. Qed.

Lemma kind_requirements text :
  partKind (requirementsPart text) = RequirementsKind.
Proof. reflexivity. Qed.

Lemma kind_evidence analysis : partKind (evidencePart analysis) = EvidenceKind.
Proof. reflexivity. Qed.

Lemma kind_content isHtml shown :
  partKind (contentPart isHtml shown) = ContentKind.
Proof. destruct isHtml; reflexivity. Qed.

Lemma kinds_of_fileParts b64 mime part :
  In part (fileParts b64 mime) ->
  partKind part = FileKind \/ partKind part = ReferenceKind.
Proof.
  unfold fileParts. destruct b64 as [data|], mime as [mimeType|];
    try contradiction.
  destruct (negb (blank data) && negb (blank mimeType)); [|contradiction].
  intros [<-|[<-|[]]]; auto.
Qed.

Lemma kinds_of_requirementsParts text part :
  In part (requirementsParts text) -> partKind part = RequirementsKind.
Proof.
  unfold requirementsParts.
  destruct (_ && _); [|contradiction]. now intros [<-|[]].
Qed.

Lemma kinds_of_evidenceParts analysis part :
  In part (evidenceParts analysis) -> partKind part = EvidenceKind.
Proof.
  unfold evidenceParts. destruct analysis as [text|]; [|contradiction].
  destruct (negb (blank text)); [|contradiction]. now intros [<-|[]].
Qed.

Lemma style_evidence_parts_absent content formatRequirements
      docxStyleAnalysis formatFileBase64 formatFileMimeType isHtml :
  docxStyleAnalysis = None \/ docxStyleAnalysis = Some EmptyString ->
  forall part,
    In part (analysisParts substring content formatRequirements
                           docxStyleAnalysis formatFileBase64
                           formatFileMimeType isHtml) ->
    partKind part <> EvidenceKind.
Proof.
  intros Hnone part Hin. rewrite analysisParts_layout in Hin.
  rewrite !in_app_iff in Hin.
  assert (Hempty : evidenceParts docxStyleAnalysis = [])
    by (destruct Hnone as [-> | ->]; reflexivity).
  rewrite Hempty in Hin.
  destruct Hin as [H|[H|[[]|[H|[]]]]].
  - apply kinds_of_fileParts in H. destruct H as [-> | ->]; discriminate.
  - apply kinds_of_requirementsParts in H. rewrite H. discriminate.
  - subst part. rewrite kind_content. discriminate.
Qed.

End RequestParts.

Section RequestShape.

Variable substring : string -> N -> N -> string.

Lemma requirementsParts_given text :
  requirementsParts text = [requirementsPart text] <-> trim text <> EmptyString.
Proof.
  unfold requirementsParts. destruct text as [|c text].
  - split; [discriminate|intros H; now contradiction H].
  - cbn [blank isEmpty negb andb].
    destruct (trim (String c text)) as [|c' trimmed]; cbn.
    + split; [discriminate|congruence].
    + split; [discriminate|reflexivity].
Qed.

Lemma requirementsParts_blank text :
  trim text = EmptyString -> requirementsParts text = [].
Proof.
  intros H. unfold requirementsParts. rewrite H.
  now rewrite andb_false_r.
Qed.

(** X17. In every request of the analysis the thesis content is sent, as
    the last part.  A file is sent only when both its data and its type
    are given and not empty; it is then the first part and the note that
    refers to it is the second.  The written requirements are sent
    exactly when they hold something other than white space.  There are
    at most five parts. *)
Theorem analysis_parts_shape content formatRequirements docxStyleAnalysis
        formatFileBase64 formatFileMimeType isHtml :
  let parts :=
    analysisParts substring content formatRequirements docxStyleAnalysis
                  formatFileBase64 formatFileMimeType isHtml in
  last parts = Some (contentPart isHtml (substring content 0%N 30000%N))
  /\ (forall i mimeType data,
         parts !! i = Some (InlineData mimeType data) ->
         i = 0%nat
         /\ formatFileBase64 = Some data /\ data <> EmptyString
         /\ formatFileMimeType = Some mimeType /\ mimeType <> EmptyString
         /\ parts !! 1%nat = Some referencePart)
  /\ (In (requirementsPart formatRequirements) parts
      <-> trim formatRequirements <> EmptyString)
  /\ (length parts <= 5)%nat.
Proof.
  intros parts. unfold parts. rewrite analysisParts_layout.
  split; [|split; [|split]].
  - rewrite !List.app_assoc. apply last_snoc.
  - intros i mimeType data Hi.
    assert (Hin : In (InlineData mimeType data)
                     (fileParts formatFileBase64 formatFileMimeType)).
    { apply list_elem_of_lookup_2, list_elem_of_In in Hi.
      rewrite !in_app_iff in Hi.
      destruct Hi as [H|[H|[H|[H|[]]]]]; [exact H| | |].
      - apply kinds_of_requirementsParts in H. discriminate H.
      - apply kinds_of_evidenceParts in H. discriminate H.
      - apply (f_equal partKind) in H. rewrite kind_content in H.
        discriminate H. }
    unfold fileParts in *.
    destruct formatFileBase64 as [d|], formatFileMimeType as [m|];
      try contradiction.
    destruct d as [|c d], m as [|c' m]; try contradiction.
    cbn in Hin. destruct Hin as [[= <- <-]|[H|[]]]; [|discriminate H].
    cbn in Hi. destruct i as [|[|i]]; [now repeat split|discriminate Hi|].
    cbn in Hi. exfalso.
    apply list_elem_of_lookup_2, list_elem_of_In in Hi.
    rewrite !in_app_iff in Hi.
    destruct Hi as [H|[H|[H|[]]]].
    + apply kinds_of_requirementsParts in H. discriminate H.
    + apply kinds_of_evidenceParts in H. discriminate H.
    + apply (f_equal partKind) in H. rewrite kind_content in H.
      discriminate H.
  - rewrite !in_app_iff. split.
    + intros [H|[H|[H|[H|[]]]]].
      * apply kinds_of_fileParts in H. rewrite kind_requirements in H.
        destruct H; discriminate.
      * apply requirementsParts_given.
        unfold requirementsParts in *.
        now destruct (_ && _).
      * apply kinds_of_evidenceParts in H. discriminate H.
      * apply (f_equal partKind) in H.
        rewrite kind_content, kind_requirements in H. discriminate H.
    + intros H. apply requirementsParts_given in H. rewrite H.
      right. left. now left.
  - rewrite !length_app.
    assert (length (fileParts formatFileBase64 formatFileMimeType) <= 2)%nat.
    { unfold fileParts.
      destruct formatFileBase64, formatFileMimeType; cbn; try lia.
      destruct (_ && _); cbn; lia. }
    assert (length (requirementsParts formatRequirements) <= 1)%nat
      by (unfold requirementsParts; destruct (_ && _); cbn; lia).
    assert (length (evidenceParts docxStyleAnalysis) <= 1)%nat.
    { unfold evidenceParts. destruct docxStyleAnalysis; cbn; try lia.
      destruct (negb _); cbn; lia. }
    cbn [length]. lia.
Qed.

(** X18. The style analysis is sent exactly when it is given and not
    empty.  It is then sent as it stands, between the fixed lines that
    present it as the core evidence, in the part that comes right before
    the thesis content; otherwise no part of that kind is in the
    request. *)
Theorem style_evidence_part content formatRequirements docxStyleAnalysis
        formatFileBase64 formatFileMimeType isHtml :
  let parts :=
    analysisParts substring content formatRequirements docxStyleAnalysis
                  formatFileBase64 formatFileMimeType isHtml in
  (forall analysis,
      docxStyleAnalysis = Some analysis ->
      analysis <> EmptyString ->
      exists before,
        parts = before ++ [ TextPart (evidenceBefore +:+ analysis
                                      +:+ evidenceAfter);
                            contentPart isHtml
                                        (substring content 0%N 30000%N) ])
  /\ (docxStyleAnalysis = None \/ docxStyleAnalysis = Some EmptyString ->
      forall part, In part parts -> partKind part <> EvidenceKind).
Proof.
  intros parts. unfold parts. rewrite analysisParts_layout. split.
  - intros analysis -> Hne.
    exists (fileParts formatFileBase64 formatFileMimeType
            ++ requirementsParts formatRequirements).
    unfold evidenceParts. destruct analysis; [congruence|].
    cbn. now rewrite <- !List.app_assoc.
  - intros Hnone part Hin. rewrite <- analysisParts_layout in Hin.
    now apply (style_evidence_parts_absent _ _ _ _ _ _ _ Hnone) in Hin.
Qed.

End RequestShape.

(** ** From the upload to the request *)

Section Lifecycle.

Import App.

Context {platform : Platform} {services : Services}.

Lemma withApp_app (w : World) : withApp w (app w) = w.
Proof. now destruct w. Qed.

Lemma fresh_controller_not_aborted (cs : list bool) :
  (cs ++ [false]) !! length cs = Some false.
Proof. now rewrite lookup_app_r, Nat.sub_diag by lia. Qed.

(** What a started analysis consists of. *)
Lemma handleAnalyze_begin_started (w w' : World) alerts pending :
  handleAnalyze_begin w = (w', alerts, Some pending) ->
  let st := app w in
  let isHtml :=
    negb (blank (thesisHtml st))
    && (0 <? String.length (thesisHtml st))%nat in
  alerts = []
  /\ controller pending = length (controllers w)
  /\ w' = {| app := setIsLoading true (setCurrentStep ANALYZING st);
             abortControllerRef := Some (length (controllers w));
             controllers := controllers w ++ [false] |}
  /\ request pending
     = analysisParts js_substring
         (if isHtml then thesisHtml st else thesisText st)
         (formatRequirements st) (Some (thesisStyleAnalysis st))
         (orUndefined (formatFileBase64 st))
         (orUndefined (formatFileMimeType st)) isHtml.
Proof.
  unfold handleAnalyze_begin, signalAborted, analyzeText_begin.
  cbn [controllers app]. rewrite fresh_controller_not_aborted.
  destruct (given (analysisResult (app w)) && negb (inputsChanged (app w)));
    [discriminate|].
  destruct (blank (trim (thesisText (app w)))); [discriminate|].
  destruct (blank (trim (formatRequirements (app w)))
            && falsy (formatFileBase64 (app w))); [discriminate|].
  destruct getClient as [[]|error].
  - intros [= <- <- <-]. cbn. destruct (app w); cbn. auto.
  - unfold analyzeSettled. cbn [abortControllerRef app].
    destruct (abortLike error); case_bool_decide; discriminate.
Qed.

(** X19. The text that the style extraction returns for an uploaded Word
    document is what the next analysis sends as core evidence: after a
    successful upload, a request that is started holds, right before the
    thesis content, the evidence part with the result of
    [parseDocxStyles] for the file, whether that is a report or one of
    the fallback messages. *)
Theorem style_report_reaches_prompt (st : AppState) file buffer html raw
        ref cs w' alerts pending :
  isDocx file = true ->
  File_arrayBuffer file = Fulfilled buffer ->
  convertToHtml buffer = Fulfilled html ->
  extractRawText buffer = Fulfilled raw ->
  handleAnalyze_begin
    {| app := fst (handleThesisFileUpload st (Some file));
       abortControllerRef := ref; controllers := cs |}
  = (w', alerts, Some pending) ->
  exists report before isHtml shown,
    parseDocxStyles file = Return report
    /\ request pending
       = before ++ [evidencePart report; contentPart isHtml shown].
Proof.
  intros Hdocx Hbuffer Hhtml Hraw Hbegin.
  destruct (parseDocxStyles_returns_text file) as (report & Hreport & Hne).
  apply handleAnalyze_begin_started in Hbegin.
  destruct Hbegin as (_ & _ & _ & Hrequest). cbn [app] in Hrequest.
  unfold handleThesisFileUpload in Hrequest. fold (isDocx file) in Hrequest.
  rewrite Hdocx, Hbuffer, Hhtml, Hraw, Hreport in Hrequest.
  cbn [fst] in Hrequest.
  rewrite analysisParts_layout in Hrequest.
  exists report. eexists. eexists. eexists. split; [exact Hreport|].
  rewrite Hrequest.
  replace (thesisStyleAnalysis _) with report by (now destruct st).
  unfold evidenceParts. rewrite Hne. cbn [negb].
  rewrite !List.app_assoc. rewrite <- List.app_assoc. reflexivity.
Qed.

(** X20. After a plain text file was loaded, no style evidence is sent:
    the style analysis of a Word document loaded before is cleared with
    the HTML, and a request that is started holds the text of the file as
    plain text and no evidence part. *)
Theorem text_upload_sends_no_style_evidence (st : AppState) file content
        ref cs w' alerts pending :
  isDocx file = false ->
  readAsText file = Some content ->
  handleAnalyze_begin
    {| app := fst (handleThesisFileUpload st (Some file));
       abortControllerRef := ref; controllers := cs |}
  = (w', alerts, Some pending) ->
  (forall part, In part (request pending) -> partKind part <> EvidenceKind)
  /\ last (request pending)
     = Some (contentPart false (js_substring content 0%N 30000%N)).
Proof.
  intros Hdocx Hread Hbegin.
  apply handleAnalyze_begin_started in Hbegin.
  destruct Hbegin as (_ & _ & _ & Hrequest). cbn [app] in Hrequest.
  unfold handleThesisFileUpload in Hrequest. fold (isDocx file) in Hrequest.
  rewrite Hdocx, Hread in Hrequest. cbn [fst] in Hrequest.
  replace (thesisStyleAnalysis _) with EmptyString in Hrequest
    by (now destruct st).
  replace (thesisHtml _) with EmptyString in Hrequest by (now destruct st).
  replace (thesisText _) with content in Hrequest by (now destruct st).
  cbn [blank isEmpty negb andb] in Hrequest.
  rewrite Hrequest. split.
  - apply (style_evidence_parts_absent js_substring). now right.
  - rewrite analysisParts_layout, !List.app_assoc. apply last_snoc.
Qed.

End Lifecycle.

(** ** Analysis, cancellation and repair *)

Section Analysis.

Import App.

Context {platform : Platform} {services : Services}.

Lemma analysisCatch_rejected error error' :
  analysisCatch error = Rejected error' ->
  error' = error /\ abortLike error = true.
Proof.
  unfold analysisCatch. destruct (abortLike error); [|discriminate].
  now intros [= <-].
Qed.

Lemma abortError_abortLike : abortLike abortError = true.
Proof. reflexivity. Qed.

Lemma analysis_aborts_only aborted outcome error :
  analyzeText_end aborted outcome = Rejected error ->
  abortLike error = true.
Proof.
  assert (Hcatch : forall e, analysisCatch e = Rejected error ->
                             abortLike error = true).
  { intros e H. apply analysisCatch_rejected in H. now destruct H as [-> H]. }
  unfold analyzeText_end. destruct outcome as [responseText|error0].
  - destruct aborted; [apply Hcatch|].
    destruct (readResult responseText) as [result|error1];
      [discriminate|apply Hcatch].
  - apply Hcatch.
Qed.

(** X21. Once the service has been called, [analyzeText] throws nothing
    but aborts: every exception of the call or of reading the response
    whose name is not [AbortError] and whose message is not [Aborted]
    becomes the fallback result, and an exception that does leave the
    function is such an abort. *)
Theorem analysis_failures_become_results aborted outcome :
  (forall error,
      analyzeText_end aborted outcome = Rejected error ->
      abortLike error = true)
  /\ (forall error,
         outcome = Rejected error ->
         abortLike error = false ->
         analyzeText_end aborted outcome
         = Fulfilled (fallbackResult error))
  /\ (forall responseText error,
         outcome = Fulfilled responseText ->
         aborted = false ->
         readResult responseText = Rejected error ->
         abortLike error = false ->
         analyzeText_end aborted outcome
         = Fulfilled (fallbackResult error)).
Proof.
  split; [|split].
  - intros error. apply analysis_aborts_only.
  - intros error -> Hnot. unfold analyzeText_end, analysisCatch.
    now rewrite Hnot.
  - intros responseText error -> -> Hread Hnot.
    unfold analyzeText_end, analysisCatch. now rewrite Hread, Hnot.
Qed.

(** X22. Reading the response fails in two cases only: the text (without
    its markdown fences) is not JSON, or it is the JSON value [null].
    Every other JSON value gives a result, with the score 0, the default
    summary and no issues where the value lacks a number, a string or an
    array under the expected name. *)
Theorem readResult_failures responseText :
  let text := responseJsonText responseText in
  (forall error,
      readResult responseText = Rejected error
      <-> JSON_parse text = Rejected error
          \/ (JSON_parse text = Fulfilled JNull
              /\ error = nullPropertyError))
  /\ (forall parsed,
         JSON_parse text = Fulfilled parsed ->
         parsed <> JNull ->
         (forall members, parsed <> JObject members) ->
         readResult responseText
         = Fulfilled {| score := zero;
                        summary := "分析完成，但未生成总结。";
                        issues := [] |}).
Proof.
  intros text. unfold readResult. fold text. split.
  - intros error. destruct (JSON_parse text) as [parsed|error0].
    + destruct parsed; cbn [getProp]; split;
        try discriminate;
        try (intros [H|[H _]]; discriminate H).
      * intros [= <-]. right. auto.
      * intros [H|[_ ->]]; [discriminate H|reflexivity].
    + split; [intros [= <-]; now left|].
      intros [[= <-]|[H _]]; [reflexivity|discriminate H].
  - intros parsed Hparsed Hnull Hobject. rewrite Hparsed.
    destruct parsed; cbn [getProp]; try reflexivity; [congruence|].
    now contradiction (Hobject members).
Qed.

(** X23. A cancelled analysis that completes is ignored.  After
    [handleCancelAnalysis] the application is at the upload step and not
    loading; when the service then answers the request that was waiting,
    whatever the answer, nothing changes and no alert is shown. *)
Theorem cancelled_analysis_is_ignored (w0 : World) c parts :
  abortControllerRef w0 = Some c ->
  (c < length (controllers w0))%nat ->
  let w := handleCancelAnalysis w0 in
  currentStep (app w) = UPLOAD
  /\ isLoading (app w) = false
  /\ abortControllerRef w = None
  /\ forall responseText,
       handleAnalyze_end w {| controller := c; request := parts |}
                         (Fulfilled responseText)
       = (w, []).
Proof.
  intros Href Hc w. unfold w, handleCancelAnalysis, withApp. rewrite Href.
  cbn [app abortControllerRef controllers].
  repeat split; try (now destruct (app w0)).
  intros responseText.
  unfold handleAnalyze_end, signalAborted, analyzeText_end, analysisCatch.
  cbn [controller controllers].
  rewrite list_lookup_insert_eq by assumption.
  rewrite abortError_abortLike.
  unfold analyzeSettled, withApp. cbn [abortControllerRef app controllers].
  rewrite abortError_abortLike.
  now case_bool_decide.
Qed.

(** X24. A cancelled analysis whose call fails is not ignored.  When the
    controller of a waiting request is no longer the current one (as after
    a cancellation) and the call then fails with an exception that is not
    an abort, the fallback result is stored, the inputs count as analysed
    and the application moves to the report step; the loading flag and
    the current controller are left alone. *)
Theorem failure_after_cancel_shows_report (w : World) c parts error :
  abortControllerRef w <> Some c ->
  abortLike error = false ->
  handleAnalyze_end w {| controller := c; request := parts |}
                    (Rejected error)
  = (withApp w
       (setCurrentStep REPORT
          (setInputsChanged false
             (setAnalysisResult (Some (fallbackResult error)) (app w)))),
     []).
Proof.
  intros Href Hnot.
  unfold handleAnalyze_end, analyzeText_end, analysisCatch.
  rewrite Hnot. unfold analyzeSettled. cbn [controller].
  now case_bool_decide.
Qed.

(** X25. An analysis that runs without interruption ends the loading: in
    the world that [handleAnalyze] left when it called the service, its
    completion clears the loading flag and the current controller, shows
    no alert, and moves to the report step with a result (the fallback
    result when the call or the reading failed).  Only an abort leaves
    the step as it was. *)
Theorem uninterrupted_analysis_ends_loading (w w1 : World) alerts pending
        outcome :
  handleAnalyze_begin w = (w1, alerts, Some pending) ->
  let '(w2, alerts2) := handleAnalyze_end w1 pending outcome in
  isLoading (app w2) = false
  /\ abortControllerRef w2 = None
  /\ alerts2 = []
  /\ ((currentStep (app w2) = REPORT
       /\ inputsChanged (app w2) = false
       /\ exists result,
            analyzeText_end false outcome = Fulfilled result
            /\ analysisResult (app w2) = Some result)
      \/ (currentStep (app w2) = ANALYZING
          /\ exists error,
               analyzeText_end false outcome = Rejected error
               /\ abortLike error = true)).
Proof.
  intros Hbegin. apply handleAnalyze_begin_started in Hbegin.
  destruct Hbegin as (_ & Hc & -> & _).
  unfold handleAnalyze_end, signalAborted. rewrite Hc.
  cbn [controllers]. rewrite fresh_controller_not_aborted.
  destruct (analyzeText_end false outcome) as [result|error] eqn:Hend.
  - unfold analyzeSettled. cbn [abortControllerRef app].
    case_bool_decide; [|congruence]. cbn [app abortControllerRef].
    repeat split; try (now destruct (app w)).
    left. repeat split; try (now destruct (app w)).
    exists result. split; [reflexivity|now destruct (app w)].
  - assert (Habort : abortLike error = true)
      by (eapply analysis_aborts_only; exact Hend).
    unfold analyzeSettled. rewrite Habort. cbn [abortControllerRef app].
    case_bool_decide; [|congruence]. cbn [app abortControllerRef].
    repeat split; try (now destruct (app w)).
    right. split; [now destruct (app w)|eauto].
Qed.

End Analysis.

(** ** Stale reports *)

Section StaleReports.

Import App.

Context {platform : Platform} {services : Services}.



End StaleReports.

(** ** Removing tags from the repaired text *)

Section Tags.

Lemma closeTag_shorter text rest :
  closeTag text = Some rest -> (String.length rest < String.length text)%nat.
Proof.
  induction text as [|c text IH]; [discriminate|]. cbn.
  destruct (Ascii.eqb c ">"); [intros [= ->]; lia|].
  intros H. apply IH in H. lia.
Qed.

Lemma matchTag_shorter text rest :
  matchTag text = Some rest -> (String.length rest < String.length text)%nat.
Proof.
  destruct text as [|lt [|c text]]; try discriminate. cbn.
  destruct (Ascii.eqb lt "<" && negb (Ascii.eqb c ">")); [|discriminate].
  intros H. apply closeTag_shorter in H. lia.
Qed.

Lemma closeTag_none_tail c text :
  closeTag (String c text) = None ->
  Ascii.eqb c ">" = false /\ closeTag text = None.
Proof. cbn. now destruct (Ascii.eqb c ">"). Qed.

Lemma closeTag_none_matchTag text :
  closeTag text = None -> matchTag text = None.
Proof.
  destruct text as [|lt [|c text]]; try reflexivity.
  intros H. apply closeTag_none_tail in H as [_ H].
  apply closeTag_none_tail in H as [_ H].
  cbn. rewrite H. now destruct (_ && _).
Qed.

(** A text without [>] has no tag to remove. *)
Lemma stripTagsFrom_no_close fuel : forall text,
  closeTag text = None -> stripTagsFrom fuel text = text.
Proof.
  induction fuel as [|fuel IH]; intros text Hnone; [reflexivity|].
  cbn. rewrite (closeTag_none_matchTag _ Hnone).
  destruct text as [|c text]; [reflexivity|].
  apply closeTag_none_tail in Hnone as [_ Hnone]. now rewrite IH.
Qed.

Lemma matchTag_not_lt c text :
  Ascii.eqb c "<" = false -> matchTag (String c text) = None.
Proof. intros H. cbn. rewrite H. now destruct text. Qed.

Lemma stripTagsFrom_no_tag fuel : forall text pre post,
  (String.length text < fuel)%nat ->
  stripTagsFrom fuel text = pre +:+ post ->
  matchTag post = None.
Proof.
  induction fuel as [|fuel IH]; intros text pre post Hfuel; [lia|].
  cbn [stripTagsFrom].
  destruct (matchTag text) as [rest|] eqn:Hmatch.
  - apply IH. apply matchTag_shorter in Hmatch. lia.
  - destruct text as [|c text].
    + destruct pre; [|discriminate]. rewrite app_nil_l. now intros <-.
    + cbn [String.length] in Hfuel. destruct pre as [|c0 pre].
      2: { rewrite app_cons. intros [= _ H]. apply IH in H; [exact H|lia]. }
      rewrite app_nil_l. intros <-.
      destruct (Ascii.eqb c "<") eqn:Hlt;
        [|now apply matchTag_not_lt].
      apply Ascii.eqb_eq in Hlt. subst c.
      destruct text as [|c' text].
      { now destruct fuel. }
      destruct (Ascii.eqb c' ">") eqn:Hgt.
      * apply Ascii.eqb_eq in Hgt. subst c'.
        destruct fuel as [|fuel]; [cbn in Hfuel; lia|].
        cbn [stripTagsFrom].
        rewrite (matchTag_not_lt ">" text) by reflexivity.
        reflexivity.
      * assert (Hnone : closeTag (String c' text) = None).
        { cbn in Hmatch. rewrite Hgt in Hmatch. cbn. now rewrite Hgt. }
        now rewrite stripTagsFrom_no_close.
Qed.

Lemma stripTagsFrom_fixed fuel : forall text,
  (forall pre post, text = pre +:+ post -> matchTag post = None) ->
  stripTagsFrom fuel text = text.
Proof.
  induction fuel as [|fuel IH]; intros text Hnone; [reflexivity|].
  cbn. rewrite (Hnone EmptyString text eq_refl).
  destruct text as [|c text]; [reflexivity|].
  rewrite IH; [reflexivity|].
  intros pre post ->. apply (Hnone (String c pre)). reflexivity.
Qed.

Lemma stripTagsFrom_length fuel : forall text,
  (String.length (stripTagsFrom fuel text) <= String.length text)%nat.
Proof.
  induction fuel as [|fuel IH]; intros text; [reflexivity|].
  cbn. destruct (matchTag text) as [rest|] eqn:Hmatch.
  - apply matchTag_shorter in Hmatch. specialize (IH rest). lia.
  - destruct text as [|c text]; [reflexivity|].
    cbn. specialize (IH text). lia.
Qed.

(** X27. After the tags have been removed no tag is left: at no position
    of the result does the pattern of a tag match.  Removing tags a
    second time changes nothing, the result is never longer than the
    text, and a text without [>] is returned as it is. *)
Theorem stripTags_leaves_no_tag text :
  (forall pre post, stripTags text = pre +:+ post -> matchTag post = None)
  /\ stripTags (stripTags text) = stripTags text
  /\ (String.length (stripTags text) <= String.length text)%nat
  /\ (closeTag text = None -> stripTags text = text).
Proof.
  assert (Hnone : forall pre post,
             stripTags text = pre +:+ post -> matchTag post = None).
  { intros pre post. apply stripTagsFrom_no_tag. lia. }
  split; [exact Hnone|split; [|split]].
  - unfold stripTags at 1. now apply stripTagsFrom_fixed.
  - apply stripTagsFrom_length.
  - apply stripTagsFrom_no_close.
Qed.

End Tags.

(** ** Repair *)

Section Repair.

Import App.

Context {platform : Platform} {services : Services}.

(** X28. The repair always ends at the result step, loaded, whatever the
    service did.  When the call fails, or answers without a text, the
    result that is shown is the original content with its tags removed:
    the failure is not reported.  The text shown never holds a tag. *)
Theorem repair_always_reaches_result (st : AppState) text outcome :
  let st' := handleFix_end st text outcome in
  currentStep st' = RESULT
  /\ isLoading st' = false
  /\ (forall pre post,
         fixedText st' = pre +:+ post -> matchTag post = None)
  /\ ((exists error, outcome = Rejected error)
      \/ outcome = Fulfilled None
      \/ outcome = Fulfilled (Some EmptyString) ->
      fixedText st' = stripTags text)
  /\ (forall fixed,
         outcome = Fulfilled (Some fixed) -> fixed <> EmptyString ->
         fixedText st' = stripTags fixed).
Proof.
  cbn zeta. unfold handleFix_end.
  repeat split; try (now destruct st).
  - intros pre post. replace (fixedText _) with
      (stripTags (fixText_end text outcome)) by (now destruct st).
    apply stripTagsFrom_no_tag. unfold stripTags. lia.
  - intros Hfail. replace (fixedText _) with
      (stripTags (fixText_end text outcome)) by (now destruct st).
    destruct Hfail as [[error ->]|[-> | ->]]; reflexivity.
  - intros fixed -> Hne. replace (fixedText _) with
      (stripTags (fixText_end text (Fulfilled (Some fixed))))
      by (now destruct st).
    cbn. now destruct fixed.
Qed.



End Repair.

(** ** The application on the test stage *)

Section AppSamples.

Import Sample Edge App Stage.

Local Existing Instance testPlatform.
Local Existing Instance testServices.

(** At the report the second step, the analysis, is completed. *)
Lemma indicator_statuses_witness :
  exists button,
    renderSteps true REPORT !! 1%nat = Some button
    /\ (isActive button = true <-> button_step button = REPORT)
    /\ (isCompleted button = true
        <-> (Z.of_nat 1 < currentIndex REPORT)%Z)
    /\ (isPending button = true
        <-> (currentIndex REPORT < Z.of_nat 1)%Z)
    /\ (isActive button, isCompleted button, isPending button)
       ∈ [(true, false, false); (false, true, false); (false, false, true)].
Proof.
  eexists. split; [reflexivity|].
  exact (indicator_statuses true REPORT 1 _ eq_refl).
Defined.

(** From the result step a click on the third button leads back to the
    report. *)
Lemma indicator_click_goes_back_witness :
  let st := setCurrentStep RESULT reported in
  let st' := clickButton (Some handleStepClick) (currentStep st) 2 st in
  currentStep st' = REPORT
  /\ (currentIndex (currentStep st') <= currentIndex (currentStep st))%Z
  /\ st' = setCurrentStep (currentStep st') st
  /\ analysisResult st <> None.
Proof.
  pose proof (indicator_click_goes_back (services := testServices)
                (setCurrentStep RESULT reported) 2) as H.
  cbv zeta in H. cbv zeta.
  destruct H as (Hback & Hstep & _ & Hresult).
  split; [reflexivity|]. split; [exact Hback|]. split; [exact Hstep|].
  apply Hresult; [reflexivity|discriminate].
Defined.

Lemma docx_upload_succeeds_witness :
  exists report,
    parseDocxStyles (docxWith stylesXml) = Return report
    /\ report <> EmptyString
    /\ handleThesisFileUpload
         typed (Some (docxWith stylesXml : @File testPlatform))
       = (setViewMode preview
            (setThesisStyleAnalysis report
               (setThesisText "1. Introduction Text."
                  (setThesisHtml "<h1>1. Introduction</h1><p>Text.</p>"
                     (setInputsChanged true
                        (setThesisFile
                           (Some (docxWith stylesXml : @File testPlatform))
                           typed))))), []).
Proof.
  exact (docx_upload_succeeds (services := testServices) typed
           (docxWith stylesXml) (docxWith stylesXml) _ _
           eq_refl eq_refl eq_refl eq_refl).
Defined.

(** A file named [broken.docx] that is no archive. *)
Lemma failed_docx_upload_keeps_old_analysis_witness :
  handleThesisFileUpload (services := brokenServices) initialState
                         (Some (NotAnArchive : @File testPlatform))
  = (setInputsChanged true (setThesisFile (Some (NotAnArchive : @File testPlatform)) initialState),
     [alertUnreadableDocx]).
Proof.
  exact (proj1 (failed_docx_upload_keeps_old_analysis
                  (services := brokenServices) initialState NotAnArchive
                  (plainError "Can't find end of central directory")
                  eq_refl)
               (or_intror (ex_intro _ NotAnArchive (conj eq_refl eq_refl)))).
Defined.

(** A request with a reference image and typed requirements: the image is
    the first part and the reference note follows it. *)
Lemma analysis_parts_shape_witness :
  let parts :=
    analysisParts (js_substring (Services := testServices))
                  "1. Introduction" "Line spacing 1.5" None
                  (Some "AAAA") (Some "image/png") false in
  parts !! 1%nat = Some referencePart
  /\ In (requirementsPart "Line spacing 1.5") parts.
Proof.
  pose proof (analysis_parts_shape (js_substring (Services := testServices))
                "1. Introduction" "Line spacing 1.5" None
                (Some "AAAA") (Some "image/png") false) as H.
  cbv zeta in H. cbv zeta.
  destruct H as (_ & Hfile & Hrequirements & _). split.
  - exact (proj2 (proj2 (proj2 (proj2 (proj2
             (Hfile 0%nat "image/png" "AAAA" eq_refl)))))).
  - apply Hrequirements. discriminate.
Defined.

Lemma style_evidence_part_witness :
  exists before,
    analysisParts (js_substring (Services := testServices))
                  "1. Introduction" "Line spacing 1.5"
                  (Some notFoundMessage) None None false
    = before ++ [ TextPart (evidenceBefore +:+ notFoundMessage
                            +:+ evidenceAfter);
                  contentPart false
                    (js_substring (Services := testServices)
                                  "1. Introduction" 0%N 30000%N) ].
Proof.
  refine (proj1 (style_evidence_part
                   (js_substring (Services := testServices))
                   "1. Introduction" "Line spacing 1.5"
                   (Some notFoundMessage) None None false)
                notFoundMessage eq_refl _).
  discriminate.
Defined.

(** A package without a styles part: the message that no style
    definition was found is what reaches the service as evidence. *)
Lemma style_report_reaches_prompt_witness :
  exists w' pending,
    handleAnalyze_begin
      {| app := fst (handleThesisFileUpload typed (Some (docxWithoutStyles : @File testPlatform)));
         abortControllerRef := None; controllers := [] |}
    = (w', [], Some pending)
    /\ exists report before isHtml shown,
         parseDocxStyles docxWithoutStyles = Return report
         /\ request pending
            = before ++ [evidencePart report; contentPart isHtml shown].
Proof.
  eexists _, _.
  refine ((fun H => conj H
             (style_report_reaches_prompt (services := testServices) typed
                docxWithoutStyles docxWithoutStyles _ _ None [] _ _ _
                eq_refl eq_refl eq_refl eq_refl H)) _).
  reflexivity.
Defined.

Lemma text_upload_sends_no_style_evidence_witness :
  exists w' pending,
    handleAnalyze_begin
      {| app := fst (handleThesisFileUpload typed (Some (NotAnArchive : @File testPlatform)));
         abortControllerRef := None; controllers := [] |}
    = (w', [], Some pending)
    /\ (forall part,
           In part (request pending) -> partKind part <> EvidenceKind)
    /\ last (request pending)
       = Some (contentPart false
                 (js_substring (Services := testServices)
                               "1. Introduction" 0%N 30000%N)).
Proof.
  eexists _, _.
  refine ((fun H => conj H
             (text_upload_sends_no_style_evidence (services := testServices)
                typed NotAnArchive "1. Introduction" None [] _ _ _
                eq_refl eq_refl H)) _).
  reflexivity.
Defined.

(** A network failure becomes a result. *)
Lemma analysis_failures_become_results_witness :
  analyzeText_end (services := testServices) false (Rejected networkError)
  = Fulfilled (fallbackResult networkError).
Proof.
  exact (proj1 (proj2 (analysis_failures_become_results
                         (services := testServices) false
                         (Rejected networkError)))
               networkError eq_refl eq_refl).
Defined.

(** The answer [null] is valid JSON and still fails. *)
Lemma readResult_failures_witness :
  readResult (services := testServices) (Some "null") = Rejected typeError.
Proof.
  exact (proj2 (proj1 (readResult_failures (services := testServices)
                         (Some "null")) typeError)
               (or_intror (conj eq_refl eq_refl))).
Defined.

Lemma cancelled_analysis_is_ignored_witness :
  let w0 : World (services := testServices) :=
    {| app := setIsLoading true (setCurrentStep ANALYZING typed);
       abortControllerRef := Some 0%nat; controllers := [false] |} in
  let w := handleCancelAnalysis w0 in
  currentStep (app w) = UPLOAD
  /\ isLoading (app w) = false
  /\ abortControllerRef w = None
  /\ forall responseText,
       handleAnalyze_end w {| controller := 0%nat; request := [] |}
                         (Fulfilled responseText)
       = (w, []).
Proof.
  exact (cancelled_analysis_is_ignored (services := testServices)
           {| app := setIsLoading true (setCurrentStep ANALYZING typed);
              abortControllerRef := Some 0%nat; controllers := [false] |}
           0%nat [] eq_refl (le_n 1)).
Defined.

Lemma failure_after_cancel_shows_report_witness :
  handleAnalyze_end typedWorld {| controller := 0%nat; request := [] |}
                    (Rejected networkError)
  = (withApp typedWorld
       (setCurrentStep REPORT
          (setInputsChanged false
             (setAnalysisResult (Some (fallbackResult networkError))
                                (app typedWorld)))),
     []).
Proof.
  refine (failure_after_cancel_shows_report (services := testServices)
            typedWorld 0%nat [] networkError _ eq_refl).
  discriminate.
Defined.

Lemma uninterrupted_analysis_ends_loading_witness :
  exists w1 pending,
    handleAnalyze_begin typedWorld = (w1, [], Some pending)
    /\ let '(w2, alerts2) :=
         handleAnalyze_end w1 pending (Fulfilled (Some "{}")) in
       isLoading (app w2) = false
       /\ abortControllerRef w2 = None
       /\ alerts2 = []
       /\ ((currentStep (app w2) = REPORT
            /\ inputsChanged (app w2) = false
            /\ exists result,
                 analyzeText_end false (Fulfilled (Some "{}"))
                 = Fulfilled result
                 /\ analysisResult (app w2) = Some result)
           \/ (currentStep (app w2) = ANALYZING
               /\ exists error,
                    analyzeText_end false (Fulfilled (Some "{}"))
                    = Rejected error
                    /\ abortLike error = true)).
Proof.
  eexists _, _.
  refine ((fun H => conj H
             (uninterrupted_analysis_ends_loading (services := testServices)
                typedWorld _ _ _ (Fulfilled (Some "{}")) H)) _).
  reflexivity.
Defined.


(** A comparison is no tag. *)
Lemma stripTags_leaves_no_tag_witness :
  stripTags "1 < 2" = "1 < 2".
Proof.
  exact (proj2 (proj2 (proj2 (stripTags_leaves_no_tag "1 < 2"))) eq_refl).
Defined.

Lemma repair_always_reaches_result_witness :
  fixedText (handleFix_end reported "<p>Hi</p>" (Rejected networkError))
  = stripTags "<p>Hi</p>".
Proof.
  exact (proj1 (proj2 (proj2 (proj2
           (repair_always_reaches_result (services := testServices)
              reported "<p>Hi</p>" (Rejected networkError)))))
           (or_introl (ex_intro _ networkError eq_refl))).
Defined.


(** The tags of a repaired HTML text are taken out, and with them what
    stands between a [<] of the text and the next [>]. *)
Example repaired_html_is_shown_as_text :
  fixedText (handleFix_end reported "<h1>1. Intro</h1><p>a < b</p>"
                           (Fulfilled (Some "<h1>1 Intro</h1><p>a < b</p>")))
  = "1 Introa ".
Proof. vm_compute. reflexivity. Qed.

End AppSamples.
